(** * keras_cv: the Grayscale preprocessing layer and the
    SpatialPyramidPooling layer

  A shallow embedding of
    - [keras_cv/layers/preprocessing/grayscale.py]
    - [keras_cv/layers/spatial_pyramid.py]
  Methods that receive [self] are functions in a state-and-exception
  monad over the layer object, so that an assignment to an attribute
  and a [raise] are both visible in the result of a call. *)

From stdpp Require Import gmap strings list fin_maps pretty.
From Stdlib Require Import ZArith Lia.

Local Open Scope Z_scope.

(** ** Python values, exceptions and the method monad *)

Module Py.

(** The Python values a constructor argument can hold here.  Floats are
    left out: no operation below computes on one. *)
Inductive value : Type :=
| VNone
| VBool (b : bool)
| VInt (n : Z)
| VStr (s : string).

(** [a == b].  A [bool] is an [int] in Python: [True == 1]. *)
Definition py_eq (a b : value) : bool :=
  match a, b with
  | VNone, VNone => true
  | VBool x, VBool y => Bool.eqb x y
  | VBool x, VInt n | VInt n, VBool x => Z.b2z x =? n
  | VInt n, VInt m => n =? m
  | VStr s, VStr t => bool_decide (s = t)
  | _, _ => false
  end.

(** [x in l] for a list [l]. *)
Definition py_in (x : value) (l : list value) : bool :=
  existsb (py_eq x) l.

(** [str(v)], as an f-string formats it. *)
Definition py_str (v : value) : string :=
  match v with
  | VNone => "None"
  | VBool true => "True"
  | VBool false => "False"
  | VInt n => pretty n
  | VStr s => s
  end.

Inductive exn : Type :=
| ValueError (msg : string)
| AttributeError (attr : string)
| IndexError
| InvalidArgumentError.

Inductive result (A : Type) : Type :=
| Ok (a : A)
| Raise (e : exn).
Arguments Ok {A} a.
Arguments Raise {A} e.

Definition is_ok {A} (r : result A) : bool :=
  match r with Ok _ => true | Raise _ => false end.

Definition is_value_error {A} (r : result A) : bool :=
  match r with Raise (ValueError _) => true | _ => false end.

(** A method body: it runs on the object [S] and leaves an object
    behind, also when it raises. *)
Definition M (S A : Type) : Type := S -> result A * S.

Definition ret {S A} (a : A) : M S A := fun s => (Ok a, s).
Definition raise {S A} (e : exn) : M S A := fun s => (Raise e, s).
Definition bind {S A B} (m : M S A) (k : A -> M S B) : M S B :=
  fun s => match m s with
           | (Ok a, s') => k a s'
           | (Raise e, s') => (Raise e, s')
           end.
Definition get {S} : M S S := fun s => (Ok s, s).
Definition put {S} (s : S) : M S unit := fun _ => (Ok tt, s).
(** A fallible pure call inside a method. *)
Definition lift {S A} (r : result A) : M S A := fun s => (r, s).

(** [dict(items)]: a later item overrides an earlier one with its key. *)
Definition dict {V} (items : list (string * V)) : gmap string V :=
  foldl (fun m kv => <[kv.1 := kv.2]> m) ∅ items.

End Py.

Import Py.

(** The monad's operations under stdpp's notations
  ([x ← m; k], [m ;; k] and [mret]). *)
#[global] Instance M_ret {S} : MRet (M S) := fun A => @ret S A.
#[global] Instance M_bind {S} : MBind (M S) := fun A B k m => @bind S A B m k.

(** The same notations for a fallible pure computation. *)
#[global] Instance result_ret : MRet result := fun A => @Ok A.
#[global] Instance result_bind : MBind result :=
  fun A B k r => match r with Ok a => k a | Raise e => Raise e end.

(** ** Tensors *)

Module Tensor.

(** A dense tensor: its shape and its elements in row-major order. *)
Record tensor (T : Type) : Type := mk {
  shape : list nat;
  data : list T
}.
Arguments mk {T} shape data.
Arguments shape {T} t.
Arguments data {T} t.

Definition numel (s : list nat) : nat := foldr Nat.mul 1%nat s.

Definition wf {T} (t : tensor T) : Prop :=
  length (data t) = numel (shape t).

(** Element [(i, j, c)] of a rank-3 tensor. *)
Definition at3 {T} (t : tensor T) (i j c : nat) : option T :=
  match shape t with
  | [_; w; ch] => data t !! ((i * w + j) * ch + c)%nat
  | _ => None
  end.

(** The list cut into runs of [k] elements. *)
Fixpoint chunks_aux {T} (fuel k : nat) (l : list T) : list (list T) :=
  match fuel with
  | O => []
  | S fuel' =>
      match l with
      | [] => []
      | _ => take k l :: chunks_aux fuel' k (drop k l)
      end
  end.
Definition chunks {T} (k : nat) (l : list T) : list (list T) :=
  chunks_aux (length l) k l.

(** [tf.tile] with multiples [1, ..., 1, reps]: every run along the last
    axis is repeated [reps] times. *)
Definition tile_last {T} (k reps : nat) (l : list T) : list T :=
  concat (map (fun run => concat (replicate reps run)) (chunks k l)).

End Tensor.

Import Tensor.

(** ** [keras_cv.layers.preprocessing.grayscale] *)

Module Grayscale.

Section Defs.

(** The element type of an image and the weighted sum that
    [tf.image.rgb_to_grayscale] takes over the last axis
    (0.2989 r + 0.5870 g + 0.1140 b, in the image's dtype). *)
Context {T : Type}.
Variable luma : T -> T -> T -> T.

(** The part of the object that belongs to [BaseImageAugmentationLayer],
    whose module is not part of these sources: its state, its constructor
    on the remaining keyword arguments, and the items of its
    [get_config()]. *)
Context {Base : Type}.
Variable base_init : gmap string value -> result Base.
Variable base_get_config : Base -> list (string * value).

(** The attributes of a [Grayscale] object. *)
Record layer : Type := mk_layer {
  base : Base;
  output_channels : value;
  auto_vectorize : bool
}.

(** [tf.image.rgb_to_grayscale] on the elements: one value per run of
    three. *)
Fixpoint gray_data (l : list T) : list T :=
  match l with
  | r :: g :: b :: rest => luma r g b :: gray_data rest
  | _ => []
  end.

(** [tf.image.rgb_to_grayscale(images)]: the last dimension must have
    size 3 and becomes 1. *)
Definition rgb_to_grayscale (images : tensor T) : result (tensor T) :=
  match last (shape images) with
  | Some 3%nat =>
      Ok (Tensor.mk (removelast (shape images) ++ [1%nat])
                    (gray_data (data images)))
  | _ => Raise InvalidArgumentError
  end.

(** [tf.image.grayscale_to_rgb(images)]: the library first asserts a
    grayscale image, of rank 2 or more and with a last dimension of size 1,
    and raises [ValueError] otherwise (its messages, without the shape the
    first one prints); then it tiles by 3 along the last axis. *)
Definition not_two_dimensional_msg : string :=
  "A grayscale image must be at least two-dimensional.".
Definition not_grayscale_msg : string :=
  "Last dimension of a grayscale image should be size 1.".

Definition grayscale_to_rgb (images : tensor T) : result (tensor T) :=
  if decide (length (shape images) < 2)%nat then
    Raise (ValueError not_two_dimensional_msg)
  else
    match last (shape images) with
    | Some 1%nat =>
        Ok (Tensor.mk (removelast (shape images) ++ [3%nat])
                      (tile_last 1 3 (data images)))
    | _ => Raise (ValueError not_grayscale_msg)
    end.

(** [Grayscale.__init__(self, output_channels=1, **kwargs)]. *)
Definition __init__ (output_channels : value) (kwargs : gmap string value)
  : result layer :=
  match base_init kwargs with
  | Ok b => Ok (mk_layer b output_channels false)
  | Raise e => Raise e
  end.

Definition check_msg (output_channels : value) : string :=
  "Received invalid argument output_channels. "
  +:+ "output_channels must be in 1 or 3. Got " +:+ py_str output_channels.

(** [Grayscale._check_input_params(self, output_channels)]. *)
Definition _check_input_params (oc : value) : M layer unit :=
  if negb (py_in oc [VInt 1; VInt 3]) then
    raise (ValueError (check_msg oc))
  else
    self ← get;
    put (mk_layer (base self) oc (auto_vectorize self)).

Definition unsupported_msg : string :=
  "Unsupported value for `output_channels`.".

(** [Grayscale.augment_image(self, image, transformation=None, **kwargs)]. *)
Definition augment_image {Tr} (image : tensor T) (transformation : option Tr)
    (kwargs : gmap string value) : M layer (tensor T) :=
  grayscale ← lift (rgb_to_grayscale image);
  self ← get;
  if py_eq (output_channels self) (VInt 1) then
    mret grayscale
  else if py_eq (output_channels self) (VInt 3) then
    lift (grayscale_to_rgb grayscale)
  else
    raise (ValueError unsupported_msg).

(** [Grayscale.augment_bounding_boxes(self, bounding_boxes, **kwargs)]. *)
Definition augment_bounding_boxes {B} (bounding_boxes : B)
    (kwargs : gmap string value) : M layer B :=
  mret bounding_boxes.

(** [Grayscale.augment_label(self, label, transformation=None, **kwargs)]. *)
Definition augment_label {L Tr} (label : L) (transformation : option Tr)
    (kwargs : gmap string value) : M layer L :=
  mret label.

(** [Grayscale.augment_segmentation_mask(self, segmentation_mask,
    transformation, **kwargs)]. *)
Definition augment_segmentation_mask {Mk Tr} (segmentation_mask : Mk)
    (transformation : Tr) (kwargs : gmap string value) : M layer Mk :=
  mret segmentation_mask.

(** [Grayscale.get_config(self)]. *)
Definition get_config : M layer (gmap string value) :=
  self ← get;
  let config := [("output_channels", output_channels self)] in
  let base_config := base_get_config (base self) in
  mret (dict (base_config ++ config)).

(** [Grayscale.from_config(config)], inherited: the class is called with the
    mapping expanded into keyword arguments, so the
    key [output_channels] binds the parameter of that name (default 1) and
    the other keys go to [**kwargs]. *)
Definition from_config (config : gmap string value) : result layer :=
  __init__ (default (VInt 1) (config !! "output_channels"))
           (delete "output_channels" config).

(** One invocation of a hook on the layer, for histories of calls. *)
Inductive op {B L Mk Tr : Type} : Type :=
| AugmentImage (image : tensor T) (transformation : option Tr)
    (kwargs : gmap string value)
| AugmentBoundingBoxes (bounding_boxes : B) (kwargs : gmap string value)
| AugmentLabel (label : L) (transformation : option Tr)
    (kwargs : gmap string value)
| AugmentSegmentationMask (segmentation_mask : Mk) (transformation : Tr)
    (kwargs : gmap string value).

(** The object after the invocation, whether it returned or raised. *)
Definition step {B L Mk Tr} (self : layer) (o : @op B L Mk Tr) : layer :=
  match o with
  | AugmentImage image tr kw => (augment_image image tr kw self).2
  | AugmentBoundingBoxes b kw => (augment_bounding_boxes b kw self).2
  | AugmentLabel l tr kw => (augment_label l tr kw self).2
  | AugmentSegmentationMask m tr kw =>
      (augment_segmentation_mask m tr kw self).2
  end.

Definition run {B L Mk Tr} (self : layer) (ops : list (@op B L Mk Tr))
  : layer :=
  foldl step self ops.

End Defs.

End Grayscale.

(** ** [keras_cv.layers.spatial_pyramid] *)

Module SpatialPyramidPooling.

(** What a caller hands to [build] or [call]: a [dict] keyed by levels, or
    some other object. *)
Inductive arg (V : Type) : Type :=
| ADict (d : gmap Z V)
| AOther (o : V).
Arguments ADict {V} d.
Arguments AOther {V} o.

(** [isinstance(a, dict)]. *)
Definition is_dict {V} (a : arg V) : bool :=
  match a with ADict _ => true | AOther _ => false end.

(** [level in a], for a dict. *)
Definition has_level {V} (level : Z) (a : arg V) : bool :=
  match a with ADict d => bool_decide (is_Some (d !! level)) | AOther _ => false end.

(** One entry of a shape; [None] is a dimension not known statically. *)
Definition dim : Type := option Z.

Section Defs.

(** TensorFlow's side: tensors with their dtype, [tf.cast], [tf.concat]
    along the last axis, and [tf.keras.Sequential] stacks.  Every one of
    these calls can raise.  Applying a stack gives its output, or the
    exception it raised, and the stack as the call left it (batch
    normalisation updates its moving statistics when training). *)
Context {tensor dtype float Sequential : Type}.
Variable dtype_of : tensor -> dtype.
Variable cast : tensor -> dtype -> result tensor.
Variable concat : list tensor -> result tensor.
Variable apply :
  Sequential -> tensor -> option bool -> result tensor * Sequential.

(** The four kinds of stack that [build] assembles, by the arguments that
    reach their layers; a Keras constructor raises on an argument it does
    not accept. *)
Variable conv_1x1 :
  forall (filters : Z) (activation : string), result Sequential.
Variable conv_dilated :
  forall (filters : Z) (dilation_rate : Z) (activation : string),
    result Sequential.
Variable pool_branch :
  forall (channels : dim) (filters : Z) (activation : string)
         (height width : dim), result Sequential.
Variable projection_stack :
  forall (filters : Z) (activation : string) (rate : float),
    result Sequential.

(** How an f-string formats the argument of [build] and of [call]. *)
Variable str_shapes : arg (list dim) -> string.
Variable str_inputs : arg tensor -> string.

(** The attributes of a [SpatialPyramidPooling] object; the two that
    [build] creates are absent until then. *)
Record layer : Type := mk_layer {
  level : Z;
  dilation_rates : list Z;
  num_channels : Z;
  activation : string;
  dropout : float;
  aspp_parallel_channels : option (list Sequential);
  projection : option Sequential
}.

(** [SpatialPyramidPooling.__init__(self, level, dilation_rates,
    num_channels=256, activation="relu", dropout=0.0)]. *)
Definition __init__ (level : Z) (dilation_rates : list Z) (num_channels : Z)
    (activation : string) (dropout : float) : layer :=
  mk_layer level dilation_rates num_channels activation dropout None None.

(** [self.aspp_parallel_channels = v] and [self.projection = v]. *)
Definition set_aspp_parallel_channels (v : list Sequential) : M layer unit :=
  self ← get;
  put (mk_layer (level self) (dilation_rates self) (num_channels self)
         (activation self) (dropout self) (Some v) (projection self)).

Definition set_projection (v : Sequential) : M layer unit :=
  self ← get;
  put (mk_layer (level self) (dilation_rates self) (num_channels self)
         (activation self) (dropout self) (aspp_parallel_channels self)
         (Some v)).

(** Reading [self.aspp_parallel_channels] and [self.projection]. *)
Definition get_aspp_parallel_channels : M layer (list Sequential) :=
  self ← get;
  match aspp_parallel_channels self with
  | Some v => mret v
  | None => raise (AttributeError "aspp_parallel_channels")
  end.

Definition get_projection : M layer Sequential :=
  self ← get;
  match projection self with
  | Some v => mret v
  | None => raise (AttributeError "projection")
  end.

(** [self.aspp_parallel_channels.append(s)]. *)
Definition append_channel (s : Sequential) : M layer unit :=
  chans ← get_aspp_parallel_channels;
  set_aspp_parallel_channels (chans ++ [s]).

(** [xs[i]] for a constant index [i >= 0]. *)
Definition getitem {S A} (xs : list A) (i : nat) : M S A :=
  match xs !! i with
  | Some x => mret x
  | None => raise IndexError
  end.

(** [for x in xs: body(x)]. *)
Fixpoint for_each {S A} (xs : list A) (body : A -> M S unit) : M S unit :=
  match xs with
  | [] => mret tt
  | x :: xs' => body x ;; for_each xs' body
  end.

Definition not_dict_msg : string :=
  "SpatialPyramidPooling expects input features to be a dict with int keys, "
  +:+ "received ".

Definition missing_key_msg (level : Z) : string :=
  "SpatialPyramidPooling expect the input dict to contain key "
  +:+ pretty level +:+ ", " +:+ "received ".

(** [SpatialPyramidPooling.build(self, input_shape)]. *)
Definition build (input_shape : arg (list dim)) : M layer unit :=
  match input_shape with
  | AOther _ => raise (ValueError (not_dict_msg +:+ str_shapes input_shape))
  | ADict d =>
      self ← get;
      match d !! level self with
      | None =>
          raise (ValueError
                   (missing_key_msg (level self) +:+ str_shapes input_shape))
      | Some input_shape_at_level =>
          height ← getitem input_shape_at_level 1;
          width ← getitem input_shape_at_level 2;
          channels ← getitem input_shape_at_level 3;
          set_aspp_parallel_channels [] ;;
          conv_sequential ←
            lift (conv_1x1 (num_channels self) (activation self));
          append_channel conv_sequential ;;
          for_each (dilation_rates self) (fun dilation_rate =>
            conv_sequential ←
              lift (conv_dilated (num_channels self) dilation_rate
                      (activation self));
            append_channel conv_sequential) ;;
          pool_sequential ←
            lift (pool_branch channels (num_channels self) (activation self)
                    height width);
          append_channel pool_sequential ;;
          projection ←
            lift (projection_stack (num_channels self) (activation self)
                    (dropout self));
          set_projection projection
      end
  end.

(** The constructor calls of [build] alone, in its order: the stacks it
    would append and the projection, or what the first failing constructor
    raises. *)
Definition construct (self : layer) (height width channels : dim)
  : result (list Sequential * Sequential) :=
  conv ← conv_1x1 (num_channels self) (activation self);
  dilated ← mapM (fun dilation_rate =>
                    conv_dilated (num_channels self) dilation_rate
                      (activation self))
                 (dilation_rates self);
  pool ← pool_branch channels (num_channels self) (activation self)
           height width;
  proj ← projection_stack (num_channels self) (activation self)
           (dropout self);
  mret ([conv] ++ dilated ++ [pool], proj).

(** The loop of [call]: the stacks are applied in order to the same
    input and each output is cast.  A stack is an object that its call
    changes in place, so the second component is the list as the loop
    leaves it: when a call or a cast raises, the stacks up to that one
    have been applied and the later ones have not. *)
Fixpoint run_channels (chans : list Sequential) (input_at_level : tensor)
    (training : option bool) : result (list tensor) * list Sequential :=
  match chans with
  | [] => (Ok [], [])
  | channel :: rest =>
      let '(out, channel') := apply channel input_at_level training in
      match out with
      | Raise e => (Raise e, channel' :: rest)
      | Ok out =>
          match cast out (dtype_of input_at_level) with
          | Raise e => (Raise e, channel' :: rest)
          | Ok out =>
              let '(outs, rest') :=
                run_channels rest input_at_level training in
              (match outs with
               | Ok outs => Ok (out :: outs)
               | Raise e => Raise e
               end, channel' :: rest')
          end
      end
  end.

(** [SpatialPyramidPooling.call(self, inputs, training=None)].  The two
    writes after a stack has been applied are not assignments of the
    source: they record what the call did to the object in place. *)
Definition call (inputs : arg tensor) (training : option bool)
  : M layer (gmap Z tensor) :=
  match inputs with
  | AOther _ => raise (ValueError (not_dict_msg +:+ str_inputs inputs))
  | ADict d =>
      self ← get;
      match d !! level self with
      | None =>
          raise (ValueError
                   (missing_key_msg (level self) +:+ str_inputs inputs))
      | Some input_at_level =>
          chans ← get_aspp_parallel_channels;
          let '(result, chans') :=
            run_channels chans input_at_level training in
          set_aspp_parallel_channels chans' ;;
          result ← lift result;
          result ← lift (concat result);
          proj ← get_projection;
          let '(result, proj') := apply proj result training in
          set_projection proj' ;;
          result ← lift result;
          mret {[ level self := result ]}
      end
  end.

(** The outputs of the parallel stacks alone, cast, in order. *)
Fixpoint channel_outputs (chans : list Sequential) (input_at_level : tensor)
    (training : option bool) : result (list tensor) :=
  match chans with
  | [] => Ok []
  | channel :: rest =>
      out ← (apply channel input_at_level training).1;
      out ← cast out (dtype_of input_at_level);
      outs ← channel_outputs rest input_at_level training;
      mret (out :: outs)
  end.

(** What [call] returns at [level]: the projection of the concatenated,
    cast outputs of the parallel stacks, or what the first failing call
    among them raises. *)
Definition aspp_output (chans : list Sequential) (proj : Sequential)
    (input_at_level : tensor) (training : option bool) : result tensor :=
  outs ← channel_outputs chans input_at_level training;
  result ← concat outs;
  (apply proj result training).1.

(** The stacks that a loop over constructors has appended when it ends:
    all of them, or those before the first constructor that raised. *)
Fixpoint constructed {A B} (f : A -> result B) (xs : list A) : list B :=
  match xs with
  | [] => []
  | x :: xs' =>
      match f x with
      | Ok y => y :: constructed f xs'
      | Raise _ => []
      end
  end.

(** The list that [build] leaves in [aspp_parallel_channels] once it is
    past its guards and index reads: it is assigned empty first and grows
    by one stack per constructor that returned. *)
Definition left_channels (self : layer) (height width channels : dim)
  : list Sequential :=
  match conv_1x1 (num_channels self) (activation self) with
  | Raise _ => []
  | Ok conv =>
      let dilated :=
        constructed (fun dilation_rate =>
                       conv_dilated (num_channels self) dilation_rate
                         (activation self))
                    (dilation_rates self) in
      match mapM (fun dilation_rate =>
                    conv_dilated (num_channels self) dilation_rate
                      (activation self))
                 (dilation_rates self) with
      | Raise _ => [conv] ++ dilated
      | Ok _ =>
          match pool_branch channels (num_channels self) (activation self)
                  height width with
          | Raise _ => [conv] ++ dilated
          | Ok pool => [conv] ++ dilated ++ [pool]
          end
      end
  end.



(** Two states of a layer that agree on what the constructor set. *)
Definition same_config (self self' : layer) : Prop :=
  level self' = level self
  /\ dilation_rates self' = dilation_rates self
  /\ num_channels self' = num_channels self
  /\ activation self' = activation self
  /\ dropout self' = dropout self.

(** A method body that never assigns to one of those attributes. *)
Definition keeps_config {A} (m : M layer A) : Prop :=
  forall self, same_config self (m self).2.

(** The layer with [aspp_parallel_channels] set to [v]. *)
Definition with_channels (self : layer) (v : list Sequential) : layer :=
  mk_layer (level self) (dilation_rates self) (num_channels self)
    (activation self) (dropout self) (Some v) (projection self).

(** One invocation of [build] or [call], for histories of calls. *)
Inductive op : Type :=
| Build (input_shape : arg (list dim))
| Call (inputs : arg tensor) (training : option bool).

(** The object after the invocation, whether it returned or raised. *)
Definition step (self : layer) (o : op) : layer :=
  match o with
  | Build input_shape => (build input_shape self).2
  | Call inputs training => (call inputs training self).2
  end.

Definition run (self : layer) (ops : list op) : layer :=
  foldl step self ops.

(** Both attributes that [build] creates are there. *)
Definition built (self : layer) : Prop :=
  is_Some (aspp_parallel_channels self) /\ is_Some (projection self).

(** The values of a configuration mapping: the constructor's arguments by
    their annotated types, and whatever the Keras base class exports. *)
Inductive config_value : Type :=
| CInt (n : Z)
| CInts (ns : list Z)
| CStr (s : string)
| CFloat (x : float)
| CBase (v : value).

(** The items of [super().get_config()], from [tf.keras.layers.Layer]. *)
Variable base_config : list (string * config_value).

(** [SpatialPyramidPooling.get_config(self)]. *)
Definition get_config : M layer (gmap string config_value) :=
  self ← get;
  let config :=
    [("level", CInt (level self));
     ("dilation_rates", CInts (dilation_rates self));
     ("num_channels", CInt (num_channels self));
     ("activation", CStr (activation self));
     ("dropout", CFloat (dropout self))] in
  mret (dict (base_config ++ config)).

End Defs.

End SpatialPyramidPooling.

(** ** Concrete instances, to run the definitions *)

Module Instances.

(** Integer images with the integer weights of the luma sum. *)
Definition luma_Z (r g b : Z) : Z := (2989 * r + 5870 * g + 1140 * b) / 10000.

(** A base class that accepts every keyword argument and exports two
    items. *)
Definition base_init_any (kwargs : gmap string value) : result unit := Ok tt.
Definition base_get_config_two (b : unit) : list (string * value) :=
  [("name", VStr "grayscale"); ("trainable", VBool true)].

Definition grayscale_init : value -> gmap string value ->
                            result (@Grayscale.layer unit) :=
  Grayscale.__init__ base_init_any.

(** A 2 x 2 RGB image. *)
Definition image_2x2 : tensor Z :=
  Tensor.mk [2; 2; 3]%nat [255; 0; 0; 0; 255; 0; 0; 0; 255; 10; 20; 30].

(** Sub-layers on integer "tensors": a stack is a counter that is added to
    its input and counts its calls; it raises when the sum exceeds 10000,
    in place of a tensor that a stack cannot take.  Concatenation is the
    sum, and raises on the empty list as [tf.concat] does. *)
Definition apply_Z (s x : Z) (training : option bool) : result Z * Z :=
  if 10000 <? x + s then (Raise InvalidArgumentError, s)
  else (Ok (x + s), s + 1).
Definition concat_empty_msg : string :=
  "List argument 'values' to 'ConcatV2' Op with length 0 shorter than "
  +:+ "minimum length 2.".
Definition concat_Z (xs : list Z) : result Z :=
  match xs with
  | [] => Raise (ValueError concat_empty_msg)
  | _ => Ok (foldr Z.add 0 xs)
  end.
Definition cast_Z (x : Z) (d : unit) : result Z := Ok x.
Definition dtype_of_Z (x : Z) : unit := tt.

(** Constructors that raise as those of Keras do: [Conv2D] on a negative
    number of filters, [Dropout] on a rate outside [0, 1].  The pooling
    branch of this instance is stricter than that: it also refuses a height
    or a width that is not known, as an example of a constructor whose
    outcome depends on the shape that [build] receives. *)
Definition negative_filters_msg : string :=
  "Received a negative value for `filters`.".
Definition unknown_size_msg : string :=
  "Expected an integer height and width.".
Definition dropout_rate_msg : string :=
  "Invalid value for `rate`: expected a value in [0, 1].".
Definition conv_1x1_Z (filters : Z) (activation : string) : result Z :=
  if filters <? 0 then Raise (ValueError negative_filters_msg)
  else Ok filters.
Definition conv_dilated_Z (filters dilation_rate : Z) (activation : string)
  : result Z :=
  if filters <? 0 then Raise (ValueError negative_filters_msg)
  else Ok (filters + dilation_rate).
Definition pool_branch_Z (channels : SpatialPyramidPooling.dim) (filters : Z)
    (activation : string) (height width : SpatialPyramidPooling.dim)
  : result Z :=
  match height, width with
  | Some _, Some _ =>
      if filters <? 0 then Raise (ValueError negative_filters_msg)
      else Ok filters
  | _, _ => Raise (ValueError unknown_size_msg)
  end.
Definition projection_stack_Z (filters : Z) (activation : string) (rate : Z)
  : result Z :=
  if filters <? 0 then Raise (ValueError negative_filters_msg)
  else if (rate <? 0) || (1 <? rate) then Raise (ValueError dropout_rate_msg)
  else Ok filters.
Definition str_any {V} (a : SpatialPyramidPooling.arg V) : string := "...".

Definition spp_build :=
  SpatialPyramidPooling.build conv_1x1_Z conv_dilated_Z pool_branch_Z
    projection_stack_Z str_any.
Definition spp_call :=
  SpatialPyramidPooling.call (float := Z) dtype_of_Z cast_Z concat_Z apply_Z str_any.

(** [SpatialPyramidPooling(level=4, dilation_rates=[6, 12, 18])]. *)
Definition spp_4 : @SpatialPyramidPooling.layer Z Z :=
  SpatialPyramidPooling.__init__ 4 [6; 12; 18] 256 "relu" 0.

Definition shapes_2_to_5 : gmap Z (list SpatialPyramidPooling.dim) :=
  {[ 2 := [None; Some 96; Some 96; Some 24];
     3 := [None; Some 48; Some 48; Some 40];
     4 := [None; Some 24; Some 24; Some 112];
     5 := [None; Some 12; Some 12; Some 1280] ]}.

Definition spp_4_built : @SpatialPyramidPooling.layer Z Z :=
  (spp_build (SpatialPyramidPooling.ADict shapes_2_to_5) spp_4).2.

(** A batch of two 1 x 2 RGB images. *)
Definition batch_2x1x2 : tensor Z :=
  Tensor.mk [2; 1; 2; 3]%nat [255; 0; 0; 0; 255; 0; 0; 0; 255; 10; 20; 30].

(** What the Keras base class exports for [spp_4]. *)
Definition spp_base_config
  : list (string * @SpatialPyramidPooling.config_value Z) :=
  [("name", SpatialPyramidPooling.CBase (VStr "spatial_pyramid_pooling"));
   ("trainable", SpatialPyramidPooling.CBase (VBool true))].

(** Two arguments of [call] that agree at level 4, and a history of
    invocations: a training call, a build and a call on arguments that
    are not dicts. *)
Definition inputs_3_4 : gmap Z Z := {[ 4 := 10; 3 := 7 ]}.
Definition inputs_4 : gmap Z Z := {[ 4 := 10 ]}.
Definition spp_history : list (@SpatialPyramidPooling.op Z) :=
  [SpatialPyramidPooling.Call (SpatialPyramidPooling.ADict inputs_3_4)
     (Some true);
   SpatialPyramidPooling.Build (SpatialPyramidPooling.AOther []);
   SpatialPyramidPooling.Call (SpatialPyramidPooling.AOther 0) None].
Definition spp_run :=
  SpatialPyramidPooling.run dtype_of_Z cast_Z concat_Z apply_Z conv_1x1_Z
    conv_dilated_Z pool_branch_Z projection_stack_Z str_any str_any.

(** The shape at level 4 of [shapes_2_to_5], and a dict whose shape at
    level 4 has two entries only. *)
Definition shape_at_4 : list SpatialPyramidPooling.dim :=
  [None; Some 24; Some 24; Some 112].
Definition short_shape : list SpatialPyramidPooling.dim := [None; Some 3].
Definition short_shapes : gmap Z (list SpatialPyramidPooling.dim) :=
  {[ 4 := short_shape ]}.

(** [SpatialPyramidPooling(level=4, dilation_rates=[6, 12, 18],
    num_channels=-1)] and [SpatialPyramidPooling(level=4,
    dilation_rates=[6, 12, 18], dropout=7)], which the constructor
    accepts. *)
Definition spp_negative : @SpatialPyramidPooling.layer Z Z :=
  SpatialPyramidPooling.__init__ 4 [6; 12; 18] (-1) "relu" 0.
Definition spp_dropout_7 : @SpatialPyramidPooling.layer Z Z :=
  SpatialPyramidPooling.__init__ 4 [6; 12; 18] 256 "relu" 7.

(** A dict whose shape at level 4 has a height and a width that are not
    known statically. *)
Definition shapes_unknown : gmap Z (list SpatialPyramidPooling.dim) :=
  {[ 4 := [None; None; None; Some 112] ]}.

(** An argument of [call] whose tensor at level 4 the second stack of
    [spp_4_built] cannot take. *)
Definition inputs_large : gmap Z Z := {[ 4 := 9740 ]}.

End Instances.

(** * Properties *)

(** ** Lists of elements: runs and tiling *)

Section TensorFacts.

Context {T : Type}.

Lemma chunks_aux_one (fuel : nat) (l : list T) :
  (length l <= fuel)%nat ->
  chunks_aux fuel 1 l = map (fun x => [x]) l.
Proof.
  revert l; induction fuel as [|fuel IH]; intros [|x l] Hlen; simpl in *;
    try reflexivity; try lia.
  rewrite drop_0. f_equal. apply IH. lia.
Qed.

Lemma chunks_one (l : list T) : chunks 1 l = map (fun x => [x]) l.
Proof. unfold chunks. apply chunks_aux_one. lia. Qed.

(** Tiling runs of one element by three writes every element thrice. *)
Lemma tile_last_one_three (l : list T) :
  tile_last 1 3 l = l ≫= (fun x => [x; x; x]).
Proof.
  unfold tile_last. rewrite chunks_one.
  induction l as [|x l IH]; [reflexivity|].
  rewrite bind_cons, <- IH. reflexivity.
Qed.

Lemma length_triple (l : list T) :
  length (l ≫= (fun x => [x; x; x])) = (3 * length l)%nat.
Proof.
  induction l as [|x l IH]; [reflexivity|].
  rewrite bind_cons, length_app, IH. simpl. lia.
Qed.

Lemma lookup_triple (l : list T) (k c : nat) :
  (c < 3)%nat ->
  (l ≫= (fun x => [x; x; x])) !! (k * 3 + c)%nat = l !! k.
Proof.
  revert k; induction l as [|x l IH]; intros k Hc.
  - reflexivity.
  - destruct k as [|k].
    + rewrite bind_cons.
      destruct c as [|[|[|c]]]; simpl; try reflexivity; lia.
    + rewrite bind_cons, lookup_app_r; simpl; [|lia].
      rewrite <- (IH k Hc). f_equal. lia.
Qed.

End TensorFacts.

(** ** Grayscale *)

Section GrayscaleFacts.

Context {T : Type} (luma : T -> T -> T -> T).
Context {Base : Type}.
Context (base_init : gmap string value -> result Base).
Context (base_get_config : Base -> list (string * value)).

Implicit Types (self : @Grayscale.layer Base) (image : tensor T).
Implicit Types (kwargs : gmap string value).

Lemma length_gray_data (n : nat) (l : list T) :
  length l = (3 * n)%nat -> length (Grayscale.gray_data luma l) = n.
Proof.
  revert l; induction n as [|n IH]; intros l Hl.
  - destruct l; [reflexivity | simpl in Hl; lia].
  - destruct l as [|r [|g [|b rest]]]; simpl in Hl; try lia.
    simpl. f_equal. apply IH. lia.
Qed.

Lemma lookup_gray_data (k : nat) (l : list T) (r g b : T) :
  l !! (k * 3)%nat = Some r ->
  l !! (k * 3 + 1)%nat = Some g ->
  l !! (k * 3 + 2)%nat = Some b ->
  Grayscale.gray_data luma l !! k = Some (luma r g b).
Proof.
  revert l; induction k as [|k IH]; intros l Hr Hg Hb.
  - destruct l as [|r' [|g' [|b' rest]]]; simpl in *; try discriminate.
    congruence.
  - destruct l as [|r' [|g' [|b' rest]]]; simpl in *; try discriminate.
    apply IH; assumption.
Qed.

(** On a tensor whose last dimension is 3, the conversion succeeds. *)
Lemma rgb_to_grayscale_rgb image :
  last (shape image) = Some 3%nat ->
  Grayscale.rgb_to_grayscale luma image =
    Ok (Tensor.mk (removelast (shape image) ++ [1%nat])
                  (Grayscale.gray_data luma (data image))).
Proof. intros H. unfold Grayscale.rgb_to_grayscale. now rewrite H. Qed.

(** On a grey tensor of rank 2 or more, the conversion back succeeds. *)
Lemma grayscale_to_rgb_gray (lead : list nat) (d : list T) :
  lead <> [] ->
  Grayscale.grayscale_to_rgb (Tensor.mk (lead ++ [1%nat]) d)
  = Ok (Tensor.mk (lead ++ [3%nat]) (tile_last 1 3 d)).
Proof.
  intros Hlead. unfold Grayscale.grayscale_to_rgb. simpl.
  destruct (decide (length (lead ++ [1%nat]) < 2)%nat) as [Hlen|_].
  - rewrite length_app in Hlen. destruct lead; [congruence|simpl in Hlen; lia].
  - now rewrite last_snoc, removelast_last.
Qed.

(** On a tensor of rank 1 it raises. *)
Lemma grayscale_to_rgb_rank_1 (k : nat) (d : list T) :
  Grayscale.grayscale_to_rgb (Tensor.mk [k] d)
  = Raise (ValueError Grayscale.not_two_dimensional_msg).
Proof. reflexivity. Qed.

(** No hook assigns to an attribute: the object a call of [augment_image]
    leaves behind is the object it ran on. *)
Lemma augment_image_self {Tr} image (tr : option Tr) kwargs self :
  (Grayscale.augment_image luma image tr kwargs self).2 = self.
Proof.
  unfold Grayscale.augment_image, mbind, M_bind, bind, lift, get.
  destruct (Grayscale.rgb_to_grayscale luma image) as [gray|e]; simpl;
    [|reflexivity].
  destruct (py_eq _ _); [reflexivity|].
  destruct (py_eq _ _); reflexivity.
Qed.

Lemma step_self {B L Mk Tr} self (o : @Grayscale.op T B L Mk Tr) :
  Grayscale.step luma self o = self.
Proof. destruct o; simpl; [apply augment_image_self | reflexivity ..]. Qed.

Lemma run_self {B L Mk Tr} self (ops : list (@Grayscale.op T B L Mk Tr)) :
  Grayscale.run luma self ops = self.
Proof.
  unfold Grayscale.run. revert self.
  induction ops as [|o ops IH]; intros self; simpl; [reflexivity|].
  rewrite step_self. apply IH.
Qed.

(** What [augment_image] computes, by the value of [output_channels]. *)
Lemma augment_image_one {Tr} image (tr : option Tr) kwargs self :
  py_eq (Grayscale.output_channels self) (VInt 1) = true ->
  (Grayscale.augment_image luma image tr kwargs self).1 =
    Grayscale.rgb_to_grayscale luma image.
Proof.
  intros H1.
  unfold Grayscale.augment_image, mbind, M_bind, bind, lift, get.
  destruct (Grayscale.rgb_to_grayscale luma image); simpl; [|reflexivity].
  now rewrite H1.
Qed.

Lemma augment_image_three {Tr} image (tr : option Tr) kwargs self gray :
  py_eq (Grayscale.output_channels self) (VInt 1) = false ->
  py_eq (Grayscale.output_channels self) (VInt 3) = true ->
  Grayscale.rgb_to_grayscale luma image = Ok gray ->
  (Grayscale.augment_image luma image tr kwargs self).1 =
    Grayscale.grayscale_to_rgb gray.
Proof.
  intros H1 H3 Hg.
  unfold Grayscale.augment_image, mbind, M_bind, bind, lift, get.
  rewrite Hg; simpl. now rewrite H1, H3.
Qed.

Lemma augment_image_other {Tr} image (tr : option Tr) kwargs self :
  py_eq (Grayscale.output_channels self) (VInt 1) = false ->
  py_eq (Grayscale.output_channels self) (VInt 3) = false ->
  (Grayscale.augment_image luma image tr kwargs self).1 =
    match Grayscale.rgb_to_grayscale luma image with
    | Ok _ => Raise (ValueError Grayscale.unsupported_msg)
    | Raise e => Raise e
    end.
Proof.
  intros H1 H3.
  unfold Grayscale.augment_image, mbind, M_bind, bind, lift, get.
  destruct (Grayscale.rgb_to_grayscale luma image); simpl; [|reflexivity].
  now rewrite H1, H3.
Qed.

End GrayscaleFacts.

Section GrayscaleClaims.

Context {T : Type} (luma : T -> T -> T -> T).
Context {Base : Type}.
Context (base_init : gmap string value -> result Base).
Context (base_get_config : Base -> list (string * value)).

Implicit Types (self : @Grayscale.layer Base) (image : tensor T).
Implicit Types (kwargs : gmap string value).

(** C1, evaluated on the code: [Grayscale(output_channels=5)] with no
    further argument returns a layer that stores 5; the check that rejects
    5, [_check_input_params], exists but is not part of construction, and
    raises only if it is called on that layer by hand. *)
Theorem init_does_not_check_output_channels :
  Instances.grayscale_init (VInt 5) ∅ = Ok (Grayscale.mk_layer tt (VInt 5) false)
  /\ (Grayscale._check_input_params (VInt 5)
        (Grayscale.mk_layer tt (VInt 5) false)).1
     = Raise (ValueError
         ("Received invalid argument output_channels. "
          +:+ "output_channels must be in 1 or 3. Got 5")).
Proof. split; reflexivity. Qed.

(** C10: for an [output_channels] that equals neither 1 nor 3 (with
    Python's [==]), construction returns a layer whenever the base class
    accepts the remaining keyword arguments, and on that layer every call
    of [augment_image] raises: on an RGB image it raises
    [ValueError("Unsupported value for `output_channels`.")], and it
    leaves the layer as it was, so the first call and every later one
    behave alike. *)
Theorem unsupported_output_channels_raises_at_call
    (oc : value) kwargs (b : Base) :
  py_eq oc (VInt 1) = false ->
  py_eq oc (VInt 3) = false ->
  base_init kwargs = Ok b ->
  exists self,
    Grayscale.__init__ base_init oc kwargs = Ok self
    /\ Grayscale.output_channels self = oc
    /\ (forall image (tr : option unit) kw,
          is_ok (Grayscale.augment_image luma image tr kw self).1 = false)
    /\ (forall image (tr : option unit) kw,
          last (shape image) = Some 3%nat ->
          Grayscale.augment_image luma image tr kw self
          = (Raise (ValueError Grayscale.unsupported_msg), self)).
Proof.
  intros H1 H3 Hb.
  exists (Grayscale.mk_layer b oc false).
  split; [unfold Grayscale.__init__; now rewrite Hb|].
  split; [reflexivity|].
  split.
  - intros image tr kw. rewrite augment_image_other by assumption.
    now destruct (Grayscale.rgb_to_grayscale luma image).
  - intros image tr kw Hlast.
    rewrite (surjective_pairing (Grayscale.augment_image _ _ _ _ _)).
    rewrite augment_image_self, augment_image_other by assumption.
    now rewrite rgb_to_grayscale_rgb.
Qed.

(** C2: on an image of shape (H, W, 3), [augment_image] with
    [output_channels = 1] returns a tensor of shape (H, W, 1), and with
    [output_channels = 3] a tensor of shape (H, W, 3) whose three channels
    hold one and the same value at every pixel. *)
Theorem augment_image_shape self image (tr : option unit) kwargs (H W : nat) :
  shape image = [H; W; 3%nat] ->
  wf image ->
  (Grayscale.output_channels self = VInt 1 ->
   exists out,
     (Grayscale.augment_image luma image tr kwargs self).1 = Ok out
     /\ shape out = [H; W; 1%nat] /\ wf out)
  /\
  (Grayscale.output_channels self = VInt 3 ->
   exists out,
     (Grayscale.augment_image luma image tr kwargs self).1 = Ok out
     /\ shape out = [H; W; 3%nat] /\ wf out
     /\ forall i j, (i < H)%nat -> (j < W)%nat ->
          exists v, forall c, (c < 3)%nat -> at3 out i j c = Some v).
Proof.
  intros Hshape Hwf.
  assert (Hlast : last (shape image) = Some 3%nat) by now rewrite Hshape.
  assert (Hlen : length (Grayscale.gray_data luma (data image)) = (H * W)%nat).
  { apply length_gray_data. unfold wf in Hwf. rewrite Hwf, Hshape.
    simpl. lia. }
  split; intros Hoc.
  - eexists. split.
    + rewrite augment_image_one by now rewrite Hoc.
      now apply rgb_to_grayscale_rgb.
    + rewrite Hshape. split; [reflexivity|].
      unfold wf; simpl. rewrite Hlen. lia.
  - eexists. split.
    + erewrite augment_image_three;
        [ | now rewrite Hoc | now rewrite Hoc | now apply rgb_to_grayscale_rgb ].
      rewrite Hshape. now apply (grayscale_to_rgb_gray [H; W]).
    + simpl. split; [reflexivity|].
      rewrite tile_last_one_three.
      split; [unfold wf; simpl; rewrite length_triple, Hlen; lia|].
      intros i j Hi Hj.
      destruct (lookup_lt_is_Some_2 (Grayscale.gray_data luma (data image))
                  (i * W + j)%nat) as [v Hv]; [rewrite Hlen; nia|].
      exists v. intros c Hc. unfold at3; simpl.
      now rewrite lookup_triple.
Qed.

(** C3: the hooks for bounding boxes, labels and segmentation masks return
    their argument as it is, and leave the layer as it is. *)
Theorem non_image_hooks_identity {B L Mk Tr : Type} self kwargs
    (bounding_boxes : B) (label : L) (segmentation_mask : Mk)
    (tr : option Tr) (transformation : Tr) :
  Grayscale.augment_bounding_boxes bounding_boxes kwargs self
    = (Ok bounding_boxes, self)
  /\ Grayscale.augment_label label tr kwargs self = (Ok label, self)
  /\ Grayscale.augment_segmentation_mask segmentation_mask transformation
       kwargs self = (Ok segmentation_mask, self).
Proof. repeat split. Qed.

(** C5: a call of a hook leaves the layer object as it found it, so a
    second call with the same arguments, made right after the first or
    after any history of other hook calls, returns the same result. *)
Theorem hooks_pure_and_deterministic {B L Mk Tr : Type} self kwargs
    image (bounding_boxes : B) (label : L) (segmentation_mask : Mk)
    (tr : option Tr) (transformation : Tr)
    (ops : list (@Grayscale.op T B L Mk Tr)) :
  let self' := Grayscale.run luma self ops in
  (Grayscale.augment_image luma image tr kwargs self).2 = self
  /\ Grayscale.augment_image luma image tr kwargs self'
     = Grayscale.augment_image luma image tr kwargs self
  /\ (Grayscale.augment_bounding_boxes bounding_boxes kwargs self).2 = self
  /\ Grayscale.augment_bounding_boxes bounding_boxes kwargs self'
     = Grayscale.augment_bounding_boxes bounding_boxes kwargs self
  /\ (Grayscale.augment_label label tr kwargs self).2 = self
  /\ Grayscale.augment_label label tr kwargs self'
     = Grayscale.augment_label label tr kwargs self
  /\ (Grayscale.augment_segmentation_mask segmentation_mask transformation
        kwargs self).2 = self
  /\ Grayscale.augment_segmentation_mask segmentation_mask transformation
       kwargs self'
     = Grayscale.augment_segmentation_mask segmentation_mask transformation
         kwargs self.
Proof.
  intros self'. subst self'. rewrite run_self.
  repeat split. apply augment_image_self.
Qed.

End GrayscaleClaims.

Section GrayscaleConfig.

Context {T : Type} (luma : T -> T -> T -> T).
Context {Base : Type}.
Context (base_init : gmap string value -> result Base).
Context (base_get_config : Base -> list (string * value)).

Implicit Types (self : @Grayscale.layer Base) (image : tensor T).

(** The item written last wins. *)
Lemma dict_snoc {V} (items : list (string * V)) (k : string) (v : V) :
  dict (items ++ [(k, v)]) !! k = Some v.
Proof. unfold dict. rewrite foldl_app. simpl. apply lookup_insert_eq. Qed.

(** [augment_image] reads nothing of the layer but [output_channels]. *)
Lemma augment_image_reads_output_channels {Tr} image (tr : option Tr)
    (kwargs : gmap string value) self self' :
  Grayscale.output_channels self' = Grayscale.output_channels self ->
  (Grayscale.augment_image luma image tr kwargs self').1
  = (Grayscale.augment_image luma image tr kwargs self).1.
Proof.
  intros Hoc.
  unfold Grayscale.augment_image, mbind, M_bind, bind, lift, get.
  destruct (Grayscale.rgb_to_grayscale luma image); simpl; [|reflexivity].
  rewrite Hoc.
  destruct (py_eq _ _); [reflexivity|].
  destruct (py_eq _ _); reflexivity.
Qed.

(** C4: [get_config] of a constructed layer returns a mapping that holds
    the layer's [output_channels] under that key; a layer built from the
    mapping has the same [output_channels] and its [augment_image] returns
    what the original's returns on every image; and the mapping does build
    a layer whenever the base class accepts the items it exported. *)
Theorem config_round_trip (oc : value) (kwargs : gmap string value) self :
  Grayscale.__init__ base_init oc kwargs = Ok self ->
  exists config,
    Grayscale.get_config base_get_config self = (Ok config, self)
    /\ config !! "output_channels" = Some (Grayscale.output_channels self)
    /\ (forall self',
          Grayscale.from_config base_init config = Ok self' ->
          Grayscale.output_channels self' = Grayscale.output_channels self
          /\ forall image (tr : option unit) kw,
               (Grayscale.augment_image luma image tr kw self').1
               = (Grayscale.augment_image luma image tr kw self).1)
    /\ (forall b',
          base_init (delete "output_channels" config) = Ok b' ->
          Grayscale.from_config base_init config
          = Ok (Grayscale.mk_layer b' (Grayscale.output_channels self) false)).
Proof.
  intros _.
  set (config := dict (base_get_config (Grayscale.base self)
                       ++ [("output_channels", Grayscale.output_channels self)])).
  assert (Hcfg : config !! "output_channels"
                 = Some (Grayscale.output_channels self)) by apply dict_snoc.
  assert (Hfrom : forall self',
             Grayscale.from_config base_init config = Ok self' ->
             Grayscale.output_channels self' = Grayscale.output_channels self).
  { intros self'. unfold Grayscale.from_config, Grayscale.__init__.
    rewrite Hcfg; simpl.
    destruct (base_init _); intros [=]; subst; reflexivity. }
  exists config. split; [reflexivity|]. split; [exact Hcfg|]. split.
  - intros self' Hself'. split; [now apply Hfrom|].
    intros image tr kw. apply augment_image_reads_output_channels.
    now apply Hfrom.
  - intros b' Hb'. unfold Grayscale.from_config, Grayscale.__init__.
    rewrite Hcfg, Hb'. reflexivity.
Qed.

End GrayscaleConfig.

(** The statements above at concrete layers and images. *)

Lemma unsupported_output_channels_raises_at_call_5 :
  py_eq (VInt 5) (VInt 1) = false
  /\ py_eq (VInt 5) (VInt 3) = false
  /\ Instances.base_init_any ∅ = Ok tt
  /\ exists self,
       Grayscale.__init__ Instances.base_init_any (VInt 5) ∅ = Ok self
       /\ Grayscale.output_channels self = VInt 5
       /\ (forall image (tr : option unit) kw,
             is_ok (Grayscale.augment_image Instances.luma_Z image tr kw
                      self).1 = false)
       /\ (forall image (tr : option unit) kw,
             last (shape image) = Some 3%nat ->
             Grayscale.augment_image Instances.luma_Z image tr kw self
             = (Raise (ValueError Grayscale.unsupported_msg), self)).
Proof.
  split; [reflexivity|]. split; [reflexivity|]. split; [reflexivity|].
  apply (unsupported_output_channels_raises_at_call Instances.luma_Z
           Instances.base_init_any (VInt 5) ∅ tt); reflexivity.
Defined.

Lemma augment_image_shape_2x2 :
  shape Instances.image_2x2 = [2; 2; 3]%nat
  /\ wf Instances.image_2x2
  /\ (exists out,
        (Grayscale.augment_image Instances.luma_Z Instances.image_2x2
           (@None unit) ∅ (Grayscale.mk_layer tt (VInt 1) false)).1 = Ok out
        /\ shape out = [2; 2; 1]%nat /\ wf out)
  /\ (exists out,
        (Grayscale.augment_image Instances.luma_Z Instances.image_2x2
           (@None unit) ∅ (Grayscale.mk_layer tt (VInt 3) false)).1 = Ok out
        /\ shape out = [2; 2; 3]%nat /\ wf out
        /\ forall i j, (i < 2)%nat -> (j < 2)%nat ->
             exists v, forall c, (c < 3)%nat -> at3 out i j c = Some v).
Proof.
  split; [reflexivity|]. split; [reflexivity|]. split.
  - exact (proj1 (augment_image_shape Instances.luma_Z
                    (Grayscale.mk_layer tt (VInt 1) false)
                    Instances.image_2x2 None ∅ 2 2 eq_refl eq_refl) eq_refl).
  - exact (proj2 (augment_image_shape Instances.luma_Z
                    (Grayscale.mk_layer tt (VInt 3) false)
                    Instances.image_2x2 None ∅ 2 2 eq_refl eq_refl) eq_refl).
Defined.

Lemma config_round_trip_3 :
  Grayscale.__init__ Instances.base_init_any (VInt 3) ∅
  = Ok (Grayscale.mk_layer tt (VInt 3) false)
  /\ exists config,
       Grayscale.get_config Instances.base_get_config_two
         (Grayscale.mk_layer tt (VInt 3) false)
       = (Ok config, Grayscale.mk_layer tt (VInt 3) false)
       /\ config !! "output_channels" = Some (VInt 3)
       /\ (forall self',
             Grayscale.from_config Instances.base_init_any config = Ok self' ->
             Grayscale.output_channels self' = VInt 3
             /\ forall image (tr : option unit) kw,
                  (Grayscale.augment_image Instances.luma_Z image tr kw
                     self').1
                  = (Grayscale.augment_image Instances.luma_Z image tr kw
                       (Grayscale.mk_layer tt (VInt 3) false)).1)
       /\ (forall b',
             Instances.base_init_any (delete "output_channels" config)
             = Ok b' ->
             Grayscale.from_config Instances.base_init_any config
             = Ok (Grayscale.mk_layer b' (VInt 3) false)).
Proof.
  split; [reflexivity|].
  apply (config_round_trip Instances.luma_Z Instances.base_init_any
           Instances.base_get_config_two (VInt 3) ∅
           (Grayscale.mk_layer tt (VInt 3) false)).
  reflexivity.
Defined.

(** ** SpatialPyramidPooling *)

Ltac unfold_m :=
  unfold mbind, M_bind, mret, M_ret, bind, ret, raise, get, put, lift in *;
  simpl in *.

Section SpatialPyramidPoolingFacts.

Context {tensor dtype float Sequential : Type}.
Context (dtype_of : tensor -> dtype) (cast : tensor -> dtype -> result tensor).
Context (concat : list tensor -> result tensor).
Context (apply :
           Sequential -> tensor -> option bool -> result tensor * Sequential).
Context (conv_1x1 : Z -> string -> result Sequential).
Context (conv_dilated : Z -> Z -> string -> result Sequential).
Context (pool_branch : SpatialPyramidPooling.dim -> Z -> string ->
                       SpatialPyramidPooling.dim ->
                       SpatialPyramidPooling.dim -> result Sequential).
Context (projection_stack : Z -> string -> float -> result Sequential).
Context (str_shapes :
           SpatialPyramidPooling.arg (list SpatialPyramidPooling.dim) -> string).
Context (str_inputs : SpatialPyramidPooling.arg tensor -> string).

Import SpatialPyramidPooling.

Local Abbreviation layer := (@SpatialPyramidPooling.layer float Sequential).
Local Abbreviation build :=
  (SpatialPyramidPooling.build conv_1x1 conv_dilated pool_branch
     projection_stack str_shapes).
Local Abbreviation call :=
  (SpatialPyramidPooling.call (float := float) dtype_of cast concat apply
     str_inputs).
Local Abbreviation run :=
  (SpatialPyramidPooling.run dtype_of cast concat apply conv_1x1 conv_dilated
     pool_branch projection_stack str_shapes str_inputs).
Local Abbreviation construct :=
  (SpatialPyramidPooling.construct conv_1x1 conv_dilated pool_branch
     projection_stack).
Local Abbreviation left_channels :=
  (SpatialPyramidPooling.left_channels (float := float) conv_1x1 conv_dilated
     pool_branch).
Local Abbreviation run_channels :=
  (SpatialPyramidPooling.run_channels dtype_of cast apply).
Local Abbreviation channel_outputs :=
  (SpatialPyramidPooling.channel_outputs dtype_of cast apply).
Local Abbreviation aspp_output :=
  (SpatialPyramidPooling.aspp_output dtype_of cast concat apply).

Implicit Types (self : layer).

(** *** Two states with the same constructor attributes *)

Lemma same_config_refl self : same_config self self.
Proof. repeat split. Qed.

Lemma same_config_trans self1 self2 self3 :
  same_config self1 self2 -> same_config self2 self3 ->
  same_config self1 self3.
Proof.
  unfold same_config. intros (?&?&?&?&?) (?&?&?&?&?).
  repeat split; congruence.
Qed.

(** *** What [build] leaves behind *)

Lemma bind_ok {A B} (m : M layer A) (k : A -> M layer B) self a self' :
  m self = (Ok a, self') -> (m ≫= k) self = k a self'.
Proof. intros Hm. unfold_m. now rewrite Hm. Qed.

Lemma bind_raise {A B} (m : M layer A) (k : A -> M layer B) self e self' :
  m self = (Raise e, self') -> (m ≫= k) self = (Raise e, self').
Proof. intros Hm. unfold_m. now rewrite Hm. Qed.

Lemma with_channels_self self chans :
  aspp_parallel_channels self = Some chans -> with_channels self chans = self.
Proof. intros Hc. destruct self; simpl in *. now subst. Qed.

Lemma with_channels_twice self chans chans' :
  with_channels (with_channels self chans) chans' = with_channels self chans'.
Proof. reflexivity. Qed.

Lemma append_channel_ok s self chans :
  aspp_parallel_channels self = Some chans ->
  append_channel s self = (Ok tt, with_channels self (chans ++ [s])).
Proof.
  intros Hc. unfold append_channel, get_aspp_parallel_channels.
  unfold_m. now rewrite Hc.
Qed.

Lemma constructed_mapM {A B} (f : A -> result B) (xs : list A) (ys : list B) :
  mapM f xs = Ok ys -> constructed f xs = ys.
Proof.
  revert ys. induction xs as [|x xs IH]; intros ys; simpl.
  - now intros [= <-].
  - destruct (f x) as [y|e]; simpl; [|discriminate].
    destruct (mapM f xs) as [ys'|e]; simpl; [|discriminate].
    intros [= <-]. f_equal. now apply IH.
Qed.

Lemma mapM_Forall2 {A B} (f : A -> result B) (xs : list A) (ys : list B) :
  mapM f xs = Ok ys <-> Forall2 (fun x y => f x = Ok y) xs ys.
Proof.
  revert ys. induction xs as [|x xs IH]; intros ys; simpl.
  - split; [intros [= <-]; constructor | now inversion 1].
  - split.
    + destruct (f x) as [y|e] eqn:Hx; simpl; [|discriminate].
      destruct (mapM f xs) as [ys'|e] eqn:Hxs; simpl; [|discriminate].
      intros [= <-]. constructor; [exact Hx | now apply IH].
    + inversion 1 as [|? y ? ys' Hx Hxs]; subst. rewrite Hx. simpl.
      apply IH in Hxs. now rewrite Hxs.
Qed.


(** The loop over [dilation_rates]: it raises what the first failing
    constructor raises, having appended the stacks before it. *)
Lemma for_each_dilated (f : Z -> result Sequential) (rates : list Z) self
    chans :
  aspp_parallel_channels self = Some chans ->
  for_each rates
    (fun dilation_rate =>
       conv_sequential ← lift (f dilation_rate);
       append_channel conv_sequential) self
  = (mapM f rates ≫= (fun _ => Ok tt),
     with_channels self (chans ++ constructed f rates)).
Proof.
  revert self chans. induction rates as [|rate rates IH]; intros self chans Hc.
  - simpl. now rewrite app_nil_r, with_channels_self.
  - cbn [for_each constructed].
    change (mapM f (rate :: rates))
      with (y ← f rate; k ← mapM f rates; mret (y :: k)).
    destruct (f rate) as [y|e] eqn:Hy.
    + erewrite bind_ok; cycle 1.
      { erewrite bind_ok by reflexivity.
        exact (append_channel_ok _ _ _ Hc). }
      rewrite (IH _ (chans ++ [y])) by reflexivity.
      rewrite with_channels_twice, <- app_assoc. simpl.
      now destruct (mapM f rates).
    + erewrite bind_raise; cycle 1.
      { erewrite bind_raise by reflexivity.
        reflexivity. }
      simpl. now rewrite app_nil_r, with_channels_self.
Qed.

(** [build] past its guards and index reads, in one equation: what it
    raises or returns, and the layer it leaves. *)
Lemma build_state d self sh height width channels :
  d !! level self = Some sh ->
  sh !! 1%nat = Some height ->
  sh !! 2%nat = Some width ->
  sh !! 3%nat = Some channels ->
  build (ADict d) self
  = (construct self height width channels ≫= (fun _ => Ok tt),
     mk_layer (level self) (dilation_rates self) (num_channels self)
       (activation self) (dropout self)
       (Some (left_channels self height width channels))
       (match construct self height width channels with
        | Ok (_, proj) => Some proj
        | Raise _ => projection self
        end)).
Proof.
  intros Hsh Hh Hw Hc.
  unfold SpatialPyramidPooling.build, SpatialPyramidPooling.construct,
    SpatialPyramidPooling.left_channels.
  rewrite (bind_ok _ _ self self self) by reflexivity.
  rewrite Hsh. unfold getitem. rewrite Hh, Hw, Hc.
  do 3 (erewrite bind_ok by reflexivity).
  erewrite bind_ok by reflexivity.
  destruct (conv_1x1 (num_channels self) (activation self)) as [conv|e];
    [|reflexivity].
  erewrite bind_ok by reflexivity.
  erewrite bind_ok by (now apply append_channel_ok).
  set (f := fun dilation_rate =>
              conv_dilated (num_channels self) dilation_rate (activation self)).
  pose proof (for_each_dilated f (dilation_rates self)
                (with_channels
                   (mk_layer (level self) (dilation_rates self)
                      (num_channels self) (activation self) (dropout self)
                      (Some []) (projection self)) ([] ++ [conv]))
                [conv] eq_refl) as Hloop.
  simpl in Hloop.
  destruct (mapM f (dilation_rates self)) as [dilated|e] eqn:Hmap.
  - erewrite bind_ok by exact Hloop.
    rewrite (constructed_mapM f _ dilated Hmap). simpl.
    destruct (pool_branch channels (num_channels self) (activation self)
                height width) as [pool|e]; [|reflexivity].
    erewrite bind_ok by reflexivity.
    erewrite bind_ok by (now apply append_channel_ok).
    destruct (projection_stack (num_channels self) (activation self)
                (dropout self)) as [proj|e]; [|simpl].
    + erewrite bind_ok by reflexivity.
      unfold set_projection, with_channels. unfold_m.
      reflexivity.
    + unfold with_channels. unfold_m. reflexivity.
  - erewrite bind_raise by exact Hloop. reflexivity.
Qed.

Lemma build_short d self sh :
  d !! level self = Some sh ->
  (length sh < 4)%nat ->
  build (ADict d) self = (Raise IndexError, self).
Proof.
  intros Hsh Hlen. unfold SpatialPyramidPooling.build, getitem.
  unfold_m. rewrite Hsh.
  destruct sh as [|a [|b [|c [|e sh]]]]; simpl in *; try reflexivity; lia.
Qed.

Lemma build_not_dict o self :
  build (AOther o) self
  = (Raise (ValueError (not_dict_msg +:+ str_shapes (AOther o))), self).
Proof. reflexivity. Qed.

Lemma build_missing_key d self :
  d !! level self = None ->
  build (ADict d) self
  = (Raise (ValueError
              (missing_key_msg (level self) +:+ str_shapes (ADict d))), self).
Proof.
  intros Hd. unfold SpatialPyramidPooling.build. unfold_m. now rewrite Hd.
Qed.

Lemma shape_entries {A} (sh : list A) :
  (4 <= length sh)%nat ->
  exists h w c,
    sh !! 1%nat = Some h /\ sh !! 2%nat = Some w /\ sh !! 3%nat = Some c.
Proof.
  intros Hlen.
  destruct (lookup_lt_is_Some_2 sh 1) as [h Hh]; [lia|].
  destruct (lookup_lt_is_Some_2 sh 2) as [w Hw]; [lia|].
  destruct (lookup_lt_is_Some_2 sh 3) as [c Hc]; [lia|].
  eauto 6.
Qed.

Lemma has_level_dict {V} (d : gmap Z V) lvl :
  has_level lvl (ADict d) = false <-> d !! lvl = None.
Proof.
  unfold has_level. rewrite bool_decide_eq_false, <- eq_None_not_Some.
  reflexivity.
Qed.


(** *** What [call] returns and leaves behind *)

Lemma run_channels_outputs chans x training :
  (run_channels chans x training).1 = channel_outputs chans x training.
Proof.
  induction chans as [|channel rest IH]; simpl; [reflexivity|].
  destruct (apply channel x training) as [[out|e] channel']; simpl;
    [|reflexivity].
  destruct (cast out (dtype_of x)) as [out'|e]; simpl; [|reflexivity].
  destruct (SpatialPyramidPooling.run_channels dtype_of cast apply rest x
              training) as [outs rest'].
  simpl in *. rewrite <- IH. now destruct outs.
Qed.

Lemma run_channels_length chans x training :
  length (run_channels chans x training).2 = length chans.
Proof.
  induction chans as [|channel rest IH]; simpl; [reflexivity|].
  destruct (apply channel x training) as [[out|e] channel']; simpl;
    [|reflexivity].
  destruct (cast out (dtype_of x)) as [out'|e]; simpl; [|reflexivity].
  destruct (SpatialPyramidPooling.run_channels dtype_of cast apply rest x
              training) as [outs rest'].
  simpl in *. now rewrite IH.
Qed.

(** When every stack and cast returned, every stack has been applied. *)
Lemma run_channels_states chans x training outs :
  channel_outputs chans x training = Ok outs ->
  (run_channels chans x training).2
  = map (fun channel => (apply channel x training).2) chans.
Proof.
  revert outs. induction chans as [|channel rest IH]; intros outs; simpl;
    [reflexivity|].
  pose proof (run_channels_outputs rest x training) as Hout.
  destruct (apply channel x training) as [[out|e] channel']; simpl;
    [|discriminate].
  destruct (cast out (dtype_of x)) as [out'|e]; simpl; [|discriminate].
  destruct (SpatialPyramidPooling.run_channels dtype_of cast apply rest x
              training) as [outs' rest'].
  simpl in *.
  destruct (SpatialPyramidPooling.channel_outputs dtype_of cast apply rest x
              training) as [outs''|e]; simpl; [|discriminate].
  intros _. f_equal. now apply (IH outs'').
Qed.

(** When a stack or its cast raises, the stacks before it and that stack
    have been applied and the stacks after it have not. *)
Lemma run_channels_raised before channel after x training outs e :
  channel_outputs before x training = Ok outs ->
  ((apply channel x training).1 ≫= (fun out => cast out (dtype_of x)))
  = Raise e ->
  run_channels (before ++ channel :: after) x training
  = (Raise e,
     map (fun channel => (apply channel x training).2) before
     ++ (apply channel x training).2 :: after).
Proof.
  revert outs. induction before as [|b before IH]; intros outs; simpl.
  - intros _. destruct (apply channel x training) as [[out|e'] channel'];
      simpl; [|now intros [= ->]].
    destruct (cast out (dtype_of x)) as [out'|e']; [discriminate|].
    now intros [= ->].
  - destruct (apply b x training) as [[out|e'] b']; simpl; [|discriminate].
    destruct (cast out (dtype_of x)) as [out'|e']; simpl; [|discriminate].
    destruct (SpatialPyramidPooling.channel_outputs dtype_of cast apply
                before x training) as [outs'|e'] eqn:Hb; simpl;
      [|discriminate].
    intros _ He. now rewrite (IH outs' eq_refl He).
Qed.


Lemma call_not_dict o training self :
  call (AOther o) training self
  = (Raise (ValueError (not_dict_msg +:+ str_inputs (AOther o))), self).
Proof. reflexivity. Qed.

Lemma call_missing_key d training self :
  d !! level self = None ->
  call (ADict d) training self
  = (Raise (ValueError
              (missing_key_msg (level self) +:+ str_inputs (ADict d))), self).
Proof.
  intros Hd. unfold SpatialPyramidPooling.call. unfold_m. now rewrite Hd.
Qed.

Lemma call_unbuilt d x training self :
  d !! level self = Some x ->
  aspp_parallel_channels self = None ->
  call (ADict d) training self
  = (Raise (AttributeError "aspp_parallel_channels"), self).
Proof.
  intros Hd Hc. unfold SpatialPyramidPooling.call, get_aspp_parallel_channels.
  unfold_m. now rewrite Hd, Hc.
Qed.

(** [call] on a layer that holds its stacks but no projection: the loop
    and the concatenation run, then the attribute is missed. *)
Lemma call_half_built d x training self chans :
  d !! level self = Some x ->
  aspp_parallel_channels self = Some chans ->
  projection self = None ->
  call (ADict d) training self
  = (match channel_outputs chans x training ≫= concat with
     | Ok _ => Raise (AttributeError "projection")
     | Raise e => Raise e
     end,
     with_channels self (run_channels chans x training).2).
Proof.
  intros Hd Hc Hp.
  unfold SpatialPyramidPooling.call, get_aspp_parallel_channels,
    get_projection, with_channels.
  rewrite <- run_channels_outputs.
  unfold_m. rewrite Hd, Hc. simpl.
  destruct (SpatialPyramidPooling.run_channels dtype_of cast apply chans x
              training) as [[outs|e] chans']; simpl; [|reflexivity].
  destruct (concat outs) as [cat|e]; simpl; [|reflexivity].
  now rewrite Hp.
Qed.

(** [call] on a layer that holds both attributes, in one equation. *)
Lemma call_built d x training self chans proj :
  d !! level self = Some x ->
  aspp_parallel_channels self = Some chans ->
  projection self = Some proj ->
  call (ADict d) training self
  = match channel_outputs chans x training ≫= concat with
    | Ok cat =>
        ((apply proj cat training).1
         ≫= (fun result => Ok {[ level self := result ]}),
         mk_layer (level self) (dilation_rates self) (num_channels self)
           (activation self) (dropout self)
           (Some (run_channels chans x training).2)
           (Some (apply proj cat training).2))
    | Raise e =>
        (Raise e, with_channels self (run_channels chans x training).2)
    end.
Proof.
  intros Hd Hc Hp.
  unfold SpatialPyramidPooling.call, get_aspp_parallel_channels,
    get_projection, set_projection, with_channels.
  rewrite <- run_channels_outputs.
  unfold_m. rewrite Hd, Hc. simpl.
  destruct (SpatialPyramidPooling.run_channels dtype_of cast apply chans x
              training) as [[outs|e] chans']; simpl; [|reflexivity].
  destruct (concat outs) as [cat|e]; simpl; [|reflexivity].
  rewrite Hp. simpl.
  destruct (apply proj cat training) as [[out|e] proj']; reflexivity.
Qed.

Lemma call_result d x training self chans proj :
  d !! level self = Some x ->
  aspp_parallel_channels self = Some chans ->
  projection self = Some proj ->
  (call (ADict d) training self).1
  = (aspp_output chans proj x training
     ≫= (fun result => Ok {[ level self := result ]})).
Proof.
  intros Hd Hc Hp. rewrite (call_built d x training self chans proj)
    by assumption.
  unfold SpatialPyramidPooling.aspp_output.
  destruct (SpatialPyramidPooling.channel_outputs dtype_of cast apply chans x
              training) as [outs|e]; simpl; [|reflexivity].
  destruct (concat outs) as [cat|e]; reflexivity.
Qed.

(** *** Attributes the constructor set are never assigned *)

Lemma keeps_build input_shape : keeps_config (build input_shape).
Proof.
  intros self. destruct input_shape as [d|o]; [|apply same_config_refl].
  destruct (d !! level self) as [sh|] eqn:Hd;
    [|rewrite build_missing_key by assumption; apply same_config_refl].
  destruct (decide (length sh < 4)%nat) as [Hlen|Hlen].
  - rewrite (build_short d self sh) by assumption. apply same_config_refl.
  - destruct (shape_entries sh) as (h & w & c & Hh & Hw & Hc); [lia|].
    rewrite (build_state d self sh h w c) by assumption. repeat split.
Qed.

Lemma keeps_call inputs training : keeps_config (call inputs training).
Proof.
  intros self. destruct inputs as [d|o]; [|apply same_config_refl].
  destruct (d !! level self) as [x|] eqn:Hd;
    [|rewrite call_missing_key by assumption; apply same_config_refl].
  destruct (aspp_parallel_channels self) as [chans|] eqn:Hc;
    [|rewrite (call_unbuilt d x) by assumption; apply same_config_refl].
  destruct (projection self) as [proj|] eqn:Hp.
  - rewrite (call_built d x training self chans proj) by assumption.
    destruct (_ ≫= concat); repeat split.
  - rewrite (call_half_built d x training self chans) by assumption.
    repeat split.
Qed.

Lemma keeps_step self o : same_config self (SpatialPyramidPooling.step
  dtype_of cast concat apply conv_1x1 conv_dilated pool_branch
  projection_stack str_shapes str_inputs self o).
Proof. destruct o; simpl; [apply keeps_build | apply keeps_call]. Qed.

Lemma keeps_run ops self : same_config self (run self ops).
Proof.
  unfold SpatialPyramidPooling.run. revert self.
  induction ops as [|o ops IH]; intros self; simpl.
  - apply same_config_refl.
  - eapply same_config_trans; [apply keeps_step | apply IH].
Qed.

(** *** The claims *)

(** C9: [build] and [call] raise a [ValueError] exactly when their
    argument is not a dict, or is a dict without the layer's level, or,
    past these two guards, when the first constructor that fails in
    [build], respectively the first stack, [tf.cast], [tf.concat] or
    projection call that fails in [call], raises a [ValueError] itself. *)
Theorem value_error_iff_guard_or_tensorflow self input_shape inputs training :
  (is_value_error (build input_shape self).1 = true
   <-> is_dict input_shape = false
       \/ has_level (level self) input_shape = false
       \/ exists d sh height width channels,
            input_shape = ADict d
            /\ d !! level self = Some sh
            /\ sh !! 1%nat = Some height
            /\ sh !! 2%nat = Some width
            /\ sh !! 3%nat = Some channels
            /\ is_value_error (construct self height width channels) = true)
  /\
  (is_value_error (call inputs training self).1 = true
   <-> is_dict inputs = false
       \/ has_level (level self) inputs = false
       \/ exists d x chans,
            inputs = ADict d
            /\ d !! level self = Some x
            /\ aspp_parallel_channels self = Some chans
            /\ (is_value_error (channel_outputs chans x training ≫= concat)
                = true
                \/ exists proj,
                     projection self = Some proj
                     /\ is_value_error (aspp_output chans proj x training)
                        = true)).
Proof.
  split.
  - destruct input_shape as [d|o];
      [|rewrite build_not_dict; simpl; split; [now left | reflexivity]].
    destruct (d !! level self) as [sh|] eqn:Hd; cycle 1.
    { rewrite build_missing_key by assumption. simpl.
      split; [|reflexivity]. intros _. right; left. now apply has_level_dict. }
    destruct (decide (length sh < 4)%nat) as [Hlen|Hlen].
    + rewrite (build_short d self sh) by assumption. simpl.
      split; [discriminate|].
      intros [Hdict|[Hlvl|Hraise]]; [discriminate| |].
      * apply has_level_dict in Hlvl. congruence.
      * destruct Hraise as (d' & sh' & h & w & c & [= <-] & Hd' & _ & _ & Hc & _).
        rewrite Hd in Hd'. injection Hd' as <-.
        apply lookup_lt_Some in Hc. lia.
    + destruct (shape_entries sh) as (h & w & c & Hh & Hw & Hc); [lia|].
      rewrite (build_state d self sh h w c) by assumption. simpl.
      assert (Hsame :
        is_value_error (construct self h w c ≫= (fun _ => Ok tt))
        = is_value_error (construct self h w c))
        by now destruct (construct self h w c).
      rewrite Hsame. split.
      * intros Hraise. right; right. exists d, sh, h, w, c. auto 8.
      * intros [Hdict|[Hlvl|Hraise]]; [discriminate| |].
        -- apply has_level_dict in Hlvl. congruence.
        -- destruct Hraise
             as (d' & sh' & h' & w' & c' & [= <-] & Hd' & Hh' & Hw' & Hc' & He).
           congruence.
  - destruct inputs as [d|o];
      [|rewrite call_not_dict; simpl; split; [now left | reflexivity]].
    destruct (d !! level self) as [x|] eqn:Hd; cycle 1.
    { rewrite call_missing_key by assumption. simpl.
      split; [|reflexivity]. intros _. right; left. now apply has_level_dict. }
    destruct (aspp_parallel_channels self) as [chans|] eqn:Hc; cycle 1.
    { rewrite (call_unbuilt d x) by assumption. simpl.
      split; [discriminate|].
      intros [Hdict|[Hlvl|Hraise]]; [discriminate| |].
      - apply has_level_dict in Hlvl. congruence.
      - destruct Hraise as (d' & x' & chans' & _ & _ & [=] & _). }
    destruct (projection self) as [proj|] eqn:Hp.
    + rewrite (call_result d x training self chans proj) by assumption.
      assert (Hsame :
        is_value_error
          (aspp_output chans proj x training
           ≫= (fun result => Ok ({[ level self := result ]} : gmap Z tensor)))
        = is_value_error (aspp_output chans proj x training))
        by now destruct (aspp_output chans proj x training).
      rewrite Hsame. split.
      * intros Hraise. right; right. exists d, x, chans.
        do 3 (split; [reflexivity || assumption|]). right. eauto.
      * intros [Hdict|[Hlvl|Hraise]]; [discriminate| |].
        -- apply has_level_dict in Hlvl. congruence.
        -- destruct Hraise
             as (d' & x' & chans' & [= <-] & Hd' & [= <-] & [He|He]).
           ++ rewrite Hd in Hd'. injection Hd' as <-.
              unfold SpatialPyramidPooling.aspp_output.
              destruct (SpatialPyramidPooling.channel_outputs dtype_of cast
                          apply chans x training) as [outs|e]; simpl in *;
                [|assumption].
              destruct (concat outs); [discriminate | assumption].
           ++ destruct He as (proj' & [= <-] & He). congruence.
    + rewrite (call_half_built d x training self chans) by assumption.
      cbn [fst]. split.
      * intros Hraise. right; right. exists d, x, chans.
        do 3 (split; [reflexivity || assumption|]). left.
        now destruct (_ ≫= concat).
      * intros [Hdict|[Hlvl|Hraise]]; [discriminate| |].
        -- apply has_level_dict in Hlvl. congruence.
        -- destruct Hraise
             as (d' & x' & chans' & [= <-] & Hd' & [= <-] & [He|He]).
           ++ rewrite Hd in Hd'. injection Hd' as <-.
              now destruct (_ ≫= concat).
           ++ destruct He as (proj' & [=] & _).
Qed.

(** C6: [call] has two outcomes only.  Either it returns, and then the
    argument is a dict with the layer's level, the layer holds both
    attributes that [build] creates, every stack, cast, the concatenation
    and the projection returned, and the value is the whole output dict;
    or it raises and returns nothing.  When the argument is not a dict or
    lacks the level, the exception is a [ValueError] and the layer is as it
    was, no stack having been applied. *)
Theorem call_returns_all_or_raises self inputs training :
  (exists d x chans proj result self',
     inputs = ADict d
     /\ d !! level self = Some x
     /\ aspp_parallel_channels self = Some chans
     /\ projection self = Some proj
     /\ aspp_output chans proj x training = Ok result
     /\ call inputs training self = (Ok {[ level self := result ]}, self'))
  \/ ((exists e, (call inputs training self).1 = Raise e)
      /\ (has_level (level self) inputs = false ->
          exists msg,
            call inputs training self = (Raise (ValueError msg), self))).
Proof.
  destruct inputs as [d|o];
    [|right; split; [|intros _]; eexists; rewrite call_not_dict; reflexivity].
  destruct (d !! level self) as [x|] eqn:Hd; cycle 1.
  { right.
    split; [|intros _]; eexists; rewrite call_missing_key by assumption;
      reflexivity. }
  assert (Hlvl : has_level (level self) (ADict d) = false -> False).
  { intros Hlvl. apply has_level_dict in Hlvl. congruence. }
  destruct (aspp_parallel_channels self) as [chans|] eqn:Hc; cycle 1.
  { right. split; [|intros H; destruct (Hlvl H)].
    eexists. rewrite (call_unbuilt d x) by assumption. reflexivity. }
  destruct (projection self) as [proj|] eqn:Hp; cycle 1.
  { right. split; [|intros H; destruct (Hlvl H)].
    rewrite (call_half_built d x training self chans) by assumption.
    cbn [fst]. destruct (_ ≫= concat); eauto. }
  destruct (aspp_output chans proj x training) as [result|e] eqn:Hout.
  - left. exists d, x, chans, proj, result.
    exists (call (ADict d) training self).2.
    do 5 (split; [reflexivity || assumption|]).
    rewrite (surjective_pairing (call (ADict d) training self)) at 1.
    f_equal. rewrite (call_result d x training self chans proj) by assumption.
    now rewrite Hout.
  - right. split; [|intros H; destruct (Hlvl H)].
    exists e. rewrite (call_result d x training self chans proj) by assumption.
    now rewrite Hout.
Qed.

(** C8: whatever [call] returns has the layer's level as its one and only
    key, and it returns only on a dict that holds that level, however many
    other levels the dict holds. *)
Theorem call_returns_single_level self inputs training out self' :
  call inputs training self = (Ok out, self') ->
  dom out = {[ level self ]}
  /\ size out = 1%nat
  /\ exists d, inputs = ADict d /\ is_Some (d !! level self).
Proof.
  intros Hcall.
  assert (H1 : (call inputs training self).1 = Ok out) by now rewrite Hcall.
  clear Hcall.
  destruct inputs as [d|o]; [|rewrite call_not_dict in H1; discriminate].
  destruct (d !! level self) as [x|] eqn:Hd;
    [|rewrite call_missing_key in H1 by assumption; discriminate].
  destruct (aspp_parallel_channels self) as [chans|] eqn:Hc;
    [|rewrite (call_unbuilt d x) in H1 by assumption; discriminate].
  destruct (projection self) as [proj|] eqn:Hp; cycle 1.
  { rewrite (call_half_built d x training self chans) in H1 by assumption.
    cbn [fst] in H1. destruct (_ ≫= concat) in H1; discriminate. }
  rewrite (call_result d x training self chans proj) in H1 by assumption.
  destruct (aspp_output chans proj x training) as [result|e]; [|discriminate].
  injection H1 as <-.
  split; [apply dom_singleton_L|].
  split; [apply map_size_singleton|].
  exists d. split; [reflexivity|]. rewrite Hd. eauto.
Qed.

End SpatialPyramidPoolingFacts.

(** ** Both layers: configuration *)

Section Configuration.

Context {T Base B L Mk Tr : Type} (luma : T -> T -> T -> T).
Context {tensor dtype float Sequential : Type}.
Context (dtype_of : tensor -> dtype).
Context (cast : tensor -> dtype -> result tensor).
Context (concat : list tensor -> result tensor).
Context (apply :
           Sequential -> tensor -> option bool -> result tensor * Sequential).
Context (conv_1x1 : Z -> string -> result Sequential).
Context (conv_dilated : Z -> Z -> string -> result Sequential).
Context (pool_branch : SpatialPyramidPooling.dim -> Z -> string ->
                       SpatialPyramidPooling.dim ->
                       SpatialPyramidPooling.dim -> result Sequential).
Context (projection_stack : Z -> string -> float -> result Sequential).
Context (str_shapes :
           SpatialPyramidPooling.arg (list SpatialPyramidPooling.dim) -> string).
Context (str_inputs : SpatialPyramidPooling.arg tensor -> string).

(** C7: after any history of hook calls on a [Grayscale] layer its
    [output_channels] is what it was, and after any history of [build] and
    [call] invocations on a [SpatialPyramidPooling] layer, returning or
    raising, its [level], [dilation_rates], [num_channels], [activation]
    and [dropout] are what they were. *)
Theorem configuration_never_mutated
    (g : @Grayscale.layer Base) (g_ops : list (@Grayscale.op T B L Mk Tr))
    (s : @SpatialPyramidPooling.layer float Sequential)
    (s_ops : list (@SpatialPyramidPooling.op tensor)) :
  let g' := Grayscale.run luma g g_ops in
  let s' := SpatialPyramidPooling.run dtype_of cast concat apply conv_1x1
              conv_dilated pool_branch projection_stack str_shapes str_inputs
              s s_ops in
  Grayscale.output_channels g' = Grayscale.output_channels g
  /\ SpatialPyramidPooling.level s' = SpatialPyramidPooling.level s
  /\ SpatialPyramidPooling.dilation_rates s'
     = SpatialPyramidPooling.dilation_rates s
  /\ SpatialPyramidPooling.num_channels s'
     = SpatialPyramidPooling.num_channels s
  /\ SpatialPyramidPooling.activation s' = SpatialPyramidPooling.activation s
  /\ SpatialPyramidPooling.dropout s' = SpatialPyramidPooling.dropout s.
Proof.
  intros g' s'. split.
  - subst g'. now rewrite run_self.
  - apply keeps_run.
Qed.

End Configuration.

(** The statements above at a concrete layer. *)

(** [SpatialPyramidPooling(level=4, dilation_rates=[6, 12, 18],
    num_channels=-1)] is constructed without complaint; [build] on a dict
    that holds level 4 then raises the [ValueError] of [Conv2D], having
    assigned the empty list to [aspp_parallel_channels]; and [call] on a
    dict that holds level 4 then finds no stack to apply and raises the
    [ValueError] of [tf.concat]. *)
Lemma value_error_on_valid_dict :
  SpatialPyramidPooling.is_dict
    (SpatialPyramidPooling.ADict Instances.shapes_2_to_5) = true
  /\ SpatialPyramidPooling.has_level
       (SpatialPyramidPooling.level Instances.spp_negative)
       (SpatialPyramidPooling.ADict Instances.shapes_2_to_5) = true
  /\ Instances.spp_build (SpatialPyramidPooling.ADict Instances.shapes_2_to_5)
       Instances.spp_negative
     = (Raise (ValueError Instances.negative_filters_msg),
        SpatialPyramidPooling.mk_layer 4 [6; 12; 18] (-1) "relu" 0
          (Some []) None)
  /\ is_value_error
       (Instances.spp_build
          (SpatialPyramidPooling.ADict Instances.shapes_2_to_5)
          Instances.spp_negative).1 = true
  /\ SpatialPyramidPooling.is_dict
       (SpatialPyramidPooling.ADict Instances.inputs_4) = true
  /\ SpatialPyramidPooling.has_level
       (SpatialPyramidPooling.level Instances.spp_negative)
       (SpatialPyramidPooling.ADict Instances.inputs_4) = true
  /\ Instances.spp_call (SpatialPyramidPooling.ADict Instances.inputs_4) None
       (SpatialPyramidPooling.mk_layer 4 [6; 12; 18] (-1) "relu" 0
          (Some []) None)
     = (Raise (ValueError Instances.concat_empty_msg),
        SpatialPyramidPooling.mk_layer 4 [6; 12; 18] (-1) "relu" 0
          (Some []) None)
  /\ is_value_error
       (Instances.spp_call (SpatialPyramidPooling.ADict Instances.inputs_4)
          None
          (Instances.spp_build
             (SpatialPyramidPooling.ADict Instances.shapes_2_to_5)
             Instances.spp_negative).2).1 = true.
Proof. vm_compute. repeat split. Qed.

(** [call] on a dict that holds the level raises an [AttributeError] when
    the layer was never built; and on a built layer it raises what a stack
    raises, here the second one, after the first stack has been applied:
    neither is a [ValueError], and the second leaves the layer changed. *)
Lemma call_raises_other_than_value_error :
  SpatialPyramidPooling.has_level 4
    (SpatialPyramidPooling.ADict Instances.inputs_4) = true
  /\ Instances.spp_call (SpatialPyramidPooling.ADict Instances.inputs_4) None
       Instances.spp_4
     = (Raise (AttributeError "aspp_parallel_channels"), Instances.spp_4)
  /\ SpatialPyramidPooling.has_level 4
       (SpatialPyramidPooling.ADict Instances.inputs_large) = true
  /\ SpatialPyramidPooling.aspp_parallel_channels Instances.spp_4_built
     = Some [256; 262; 268; 274; 256]
  /\ SpatialPyramidPooling.projection Instances.spp_4_built = Some 256
  /\ Instances.spp_call (SpatialPyramidPooling.ADict Instances.inputs_large)
       None Instances.spp_4_built
     = (Raise InvalidArgumentError,
        SpatialPyramidPooling.mk_layer 4 [6; 12; 18] 256 "relu" 0
          (Some [257; 262; 268; 274; 256]) (Some 256)).
Proof. vm_compute. repeat split. Qed.

Lemma call_returns_single_level_4 :
  Instances.spp_call (SpatialPyramidPooling.ADict {[ 4 := 10; 3 := 7 ]}) None
    Instances.spp_4_built
  = (Ok {[ 4 := 1622 ]},
     (Instances.spp_call (SpatialPyramidPooling.ADict {[ 4 := 10; 3 := 7 ]})
        None Instances.spp_4_built).2)
  /\ dom ({[ 4 := 1622 ]} : gmap Z Z) = {[ 4 ]}
  /\ size ({[ 4 := 1622 ]} : gmap Z Z) = 1%nat
  /\ exists d,
       SpatialPyramidPooling.ADict {[ 4 := 10; 3 := 7 ]}
       = SpatialPyramidPooling.ADict d
       /\ is_Some (d !! 4).
Proof.
  assert (Hcall :
    Instances.spp_call (SpatialPyramidPooling.ADict {[ 4 := 10; 3 := 7 ]})
      None Instances.spp_4_built
    = (Ok {[ 4 := 1622 ]},
       (Instances.spp_call (SpatialPyramidPooling.ADict {[ 4 := 10; 3 := 7 ]})
          None Instances.spp_4_built).2)) by (vm_compute; reflexivity).
  split; [exact Hcall|].
  exact (call_returns_single_level Instances.dtype_of_Z Instances.cast_Z
           Instances.concat_Z Instances.apply_Z Instances.str_any
           Instances.spp_4_built
           (SpatialPyramidPooling.ADict {[ 4 := 10; 3 := 7 ]}) None
           {[ 4 := 1622 ]} _ Hcall).
Defined.

(** * Further properties *)

(** ** Grayscale: ranks, validation, configuration *)

Section GrayscaleMore.

Context {T : Type} (luma : T -> T -> T -> T).
Context {Base : Type}.
Context (base_init : gmap string value -> result Base).
Context (base_get_config : Base -> list (string * value)).

Implicit Types (self : @Grayscale.layer Base) (image : tensor T).
Implicit Types (kwargs : gmap string value).

Lemma numel_snoc (lead : list nat) (k : nat) :
  numel (lead ++ [k]) = (numel lead * k)%nat.
Proof.
  unfold numel. induction lead as [|n lead IH]; simpl; [lia|].
  rewrite IH. lia.
Qed.

(** X2: the layer takes tensors of rank 2 or more whose last dimension
    is 3, batched images among them: the leading dimensions are kept and
    the last one becomes [output_channels].  On a tensor of rank 1 the
    layer with [output_channels = 3] raises the [ValueError] of
    [tf.image.grayscale_to_rgb], which wants two dimensions at least. *)
Theorem augment_image_keeps_leading_dimensions self image (tr : option unit)
    kwargs (lead : list nat) :
  shape image = lead ++ [3%nat] ->
  wf image ->
  (lead <> [] ->
   Grayscale.output_channels self = VInt 1 ->
   exists out,
     (Grayscale.augment_image luma image tr kwargs self).1 = Ok out
     /\ shape out = lead ++ [1%nat] /\ wf out)
  /\
  (lead <> [] ->
   Grayscale.output_channels self = VInt 3 ->
   exists out,
     (Grayscale.augment_image luma image tr kwargs self).1 = Ok out
     /\ shape out = lead ++ [3%nat] /\ wf out)
  /\
  (lead = [] ->
   Grayscale.output_channels self = VInt 3 ->
   (Grayscale.augment_image luma image tr kwargs self).1
   = Raise (ValueError Grayscale.not_two_dimensional_msg)).
Proof.
  intros Hshape Hwf.
  assert (Hlast : last (shape image) = Some 3%nat)
    by (rewrite Hshape; apply last_snoc).
  assert (Hlen : length (Grayscale.gray_data luma (data image)) = numel lead).
  { apply length_gray_data. unfold wf in Hwf.
    rewrite Hwf, Hshape, numel_snoc. lia. }
  split; [|split]; intros Hlead Hoc.
  - eexists. split.
    + rewrite augment_image_one by now rewrite Hoc.
      now apply rgb_to_grayscale_rgb.
    + rewrite Hshape, removelast_last. split; [reflexivity|].
      unfold wf; simpl. rewrite Hlen, numel_snoc. lia.
  - eexists. split.
    + erewrite augment_image_three;
        [ | now rewrite Hoc | now rewrite Hoc | now apply rgb_to_grayscale_rgb ].
      rewrite Hshape, removelast_last.
      now apply grayscale_to_rgb_gray.
    + simpl. split; [reflexivity|].
      unfold wf; simpl.
      rewrite tile_last_one_three, length_triple, Hlen, numel_snoc. lia.
  - erewrite augment_image_three;
      [ | now rewrite Hoc | now rewrite Hoc | now apply rgb_to_grayscale_rgb ].
    rewrite Hshape, Hlead. reflexivity.
Qed.

(** X3: the output of [output_channels = 3] can be converted again and
    keeps its shape, while the output of [output_channels = 1] has lost
    the channels a second conversion needs, and the second call raises. *)
Theorem augment_image_twice self image (tr : option unit) kwargs (H W : nat) :
  shape image = [H; W; 3%nat] ->
  (Grayscale.output_channels self = VInt 3 ->
   exists out out',
     (Grayscale.augment_image luma image tr kwargs self).1 = Ok out
     /\ (Grayscale.augment_image luma out tr kwargs self).1 = Ok out'
     /\ shape out' = [H; W; 3%nat])
  /\
  (Grayscale.output_channels self = VInt 1 ->
   exists out,
     (Grayscale.augment_image luma image tr kwargs self).1 = Ok out
     /\ (Grayscale.augment_image luma out tr kwargs self).1
        = Raise InvalidArgumentError).
Proof.
  intros Hshape.
  assert (Hlast : last (shape image) = Some 3%nat) by now rewrite Hshape.
  split; intros Hoc.
  - do 2 eexists. split; [|split].
    + erewrite augment_image_three;
        [ | now rewrite Hoc | now rewrite Hoc | now apply rgb_to_grayscale_rgb ].
      rewrite Hshape. now apply (grayscale_to_rgb_gray [H; W]).
    + erewrite augment_image_three;
        [ | now rewrite Hoc | now rewrite Hoc | now apply rgb_to_grayscale_rgb ].
      now apply (grayscale_to_rgb_gray [H; W]).
    + reflexivity.
  - eexists. split.
    + rewrite augment_image_one by now rewrite Hoc.
      now apply rgb_to_grayscale_rgb.
    + rewrite augment_image_one by now rewrite Hoc.
      unfold Grayscale.rgb_to_grayscale. rewrite Hshape. reflexivity.
Qed.

Lemma py_in_1_3 (oc : value) :
  py_in oc [VInt 1; VInt 3] = py_eq oc (VInt 1) || py_eq oc (VInt 3).
Proof. unfold py_in. simpl. now rewrite orb_false_r. Qed.

Lemma check_input_params_cases (oc : value) self :
  (py_in oc [VInt 1; VInt 3] = true
   /\ Grayscale._check_input_params oc self
      = (Ok tt, Grayscale.mk_layer (Grayscale.base self) oc
                  (Grayscale.auto_vectorize self)))
  \/ (py_in oc [VInt 1; VInt 3] = false
      /\ Grayscale._check_input_params oc self
         = (Raise (ValueError (Grayscale.check_msg oc)), self)).
Proof.
  unfold Grayscale._check_input_params.
  destruct (py_in oc [VInt 1; VInt 3]); [left | right]; split; reflexivity.
Qed.

(** X4: [_check_input_params] returns exactly on a value equal to 1 or
    to 3; it then stores the value and touches nothing else.  On any other
    value it raises [ValueError] with the value in the message and leaves
    the layer, its previous [output_channels] included, as it was. *)
Theorem check_input_params_accepts_1_and_3 (oc : value) self :
  (is_ok (Grayscale._check_input_params oc self).1 = true
   <-> py_eq oc (VInt 1) = true \/ py_eq oc (VInt 3) = true)
  /\ (is_ok (Grayscale._check_input_params oc self).1 = true ->
      (Grayscale._check_input_params oc self).2
      = Grayscale.mk_layer (Grayscale.base self) oc
          (Grayscale.auto_vectorize self))
  /\ (is_ok (Grayscale._check_input_params oc self).1 = false ->
      Grayscale._check_input_params oc self
      = (Raise (ValueError (Grayscale.check_msg oc)), self)).
Proof.
  destruct (check_input_params_cases oc self) as [[Hin ->]|[Hin ->]];
    rewrite py_in_1_3 in Hin; simpl.
  - apply orb_true_iff in Hin.
    split; [split; auto|]. split; [reflexivity | discriminate].
  - apply orb_false_iff in Hin as [H1 H3]. rewrite H1, H3.
    split; [split; [discriminate | intros [?|?]; discriminate]|].
    split; [discriminate | reflexivity].
Qed.

(** X5: on a layer that [_check_input_params] has accepted,
    [augment_image] returns a tensor for every image of rank 2 or more
    whose last dimension is 3: the [ValueError] of its last branch cannot
    occur, nor the one of [tf.image.grayscale_to_rgb]. *)
Theorem checked_layer_returns_on_rgb_images (oc : value) self image
    (tr : option unit) kwargs :
  is_ok (Grayscale._check_input_params oc self).1 = true ->
  (2 <= length (shape image))%nat ->
  last (shape image) = Some 3%nat ->
  is_ok (Grayscale.augment_image luma image tr kwargs
           (Grayscale._check_input_params oc self).2).1 = true.
Proof.
  intros Hok Hrank Hlast.
  destruct (check_input_params_cases oc self) as [[Hin Hst]|[Hin Hst]];
    rewrite Hst in *; [|discriminate]. simpl.
  rewrite py_in_1_3 in Hin.
  destruct (py_eq oc (VInt 1)) eqn:H1.
  - rewrite augment_image_one by exact H1.
    now rewrite rgb_to_grayscale_rgb.
  - simpl in Hin.
    erewrite augment_image_three;
      [ | exact H1 | exact Hin | now apply rgb_to_grayscale_rgb ].
    apply last_Some in Hlast as [lead Hshape].
    rewrite Hshape, removelast_last.
    rewrite grayscale_to_rgb_gray; [reflexivity|].
    intros ->. rewrite Hshape in Hrank. simpl in Hrank. lia.
Qed.

(** X6: the mapping of [get_config] holds every item of the base class
    under its key, except that the key [output_channels] holds the layer's
    own value; and exporting it leaves the layer as it was. *)
Theorem get_config_keeps_base_items self (k : string) :
  exists config,
    Grayscale.get_config base_get_config self = (Ok config, self)
    /\ config !! k
       = if decide (k = "output_channels")
         then Some (Grayscale.output_channels self)
         else dict (base_get_config (Grayscale.base self)) !! k.
Proof.
  eexists. split; [reflexivity|].
  unfold dict. rewrite foldl_app. simpl.
  destruct (decide (k = "output_channels")) as [->|Hk].
  - apply lookup_insert_eq.
  - now rewrite lookup_insert_ne.
Qed.

End GrayscaleMore.

(** ** SpatialPyramidPooling: building, calling, configuration *)

Section SpatialPyramidPoolingMore.

Context {tensor dtype float Sequential : Type}.
Context (dtype_of : tensor -> dtype).
Context (cast : tensor -> dtype -> result tensor).
Context (concat : list tensor -> result tensor).
Context (apply :
           Sequential -> tensor -> option bool -> result tensor * Sequential).
Context (conv_1x1 : Z -> string -> result Sequential).
Context (conv_dilated : Z -> Z -> string -> result Sequential).
Context (pool_branch : SpatialPyramidPooling.dim -> Z -> string ->
                       SpatialPyramidPooling.dim ->
                       SpatialPyramidPooling.dim -> result Sequential).
Context (projection_stack : Z -> string -> float -> result Sequential).
Context (str_shapes :
           SpatialPyramidPooling.arg (list SpatialPyramidPooling.dim) -> string).
Context (str_inputs : SpatialPyramidPooling.arg tensor -> string).
Context (base_config :
           list (string * @SpatialPyramidPooling.config_value float)).

Import SpatialPyramidPooling.

Local Abbreviation layer := (@SpatialPyramidPooling.layer float Sequential).
Local Abbreviation build :=
  (SpatialPyramidPooling.build conv_1x1 conv_dilated pool_branch
     projection_stack str_shapes).
Local Abbreviation call :=
  (SpatialPyramidPooling.call (float := float) dtype_of cast concat apply
     str_inputs).
Local Abbreviation run :=
  (SpatialPyramidPooling.run dtype_of cast concat apply conv_1x1 conv_dilated
     pool_branch projection_stack str_shapes str_inputs).
Local Abbreviation construct :=
  (SpatialPyramidPooling.construct conv_1x1 conv_dilated pool_branch
     projection_stack).
Local Abbreviation left_channels :=
  (SpatialPyramidPooling.left_channels (float := float) conv_1x1 conv_dilated
     pool_branch).
Local Abbreviation run_channels :=
  (SpatialPyramidPooling.run_channels dtype_of cast apply).
Local Abbreviation channel_outputs :=
  (SpatialPyramidPooling.channel_outputs dtype_of cast apply).
Local Abbreviation aspp_output :=
  (SpatialPyramidPooling.aspp_output dtype_of cast concat apply).
Local Abbreviation build_state_eq :=
  (build_state conv_1x1 conv_dilated pool_branch projection_stack str_shapes).
Local Abbreviation build_short_eq :=
  (build_short conv_1x1 conv_dilated pool_branch projection_stack str_shapes).
Local Abbreviation build_missing_eq :=
  (build_missing_key conv_1x1 conv_dilated pool_branch projection_stack
     str_shapes).
Local Abbreviation call_missing_eq :=
  (call_missing_key (float := float) dtype_of cast concat apply str_inputs).
Local Abbreviation call_unbuilt_eq :=
  (call_unbuilt (float := float) dtype_of cast concat apply str_inputs).
Local Abbreviation call_half_built_eq :=
  (call_half_built (float := float) dtype_of cast concat apply str_inputs).
Local Abbreviation call_built_eq :=
  (call_built (float := float) dtype_of cast concat apply str_inputs).
Local Abbreviation call_result_eq :=
  (call_result (float := float) dtype_of cast concat apply str_inputs).
Local Abbreviation keeps_run_eq :=
  (keeps_run dtype_of cast concat apply conv_1x1 conv_dilated pool_branch
     projection_stack str_shapes str_inputs).

Implicit Types (self : layer).

(** Every constructor that [build] calls returns: the 1x1 convolution,
    the dilated convolution of every rate, the pooling branch and the
    projection. *)
Local Abbreviation constructors_return self height width channels
    conv dilated pool proj :=
  (conv_1x1 (num_channels self) (activation self) = Ok conv
   /\ Forall2 (fun dilation_rate stack =>
                 conv_dilated (num_channels self) dilation_rate
                   (activation self) = Ok stack)
              (dilation_rates self) dilated
   /\ pool_branch channels (num_channels self) (activation self)
        height width = Ok pool
   /\ projection_stack (num_channels self) (activation self) (dropout self)
      = Ok proj).

Lemma construct_ok self height width channels conv dilated pool proj :
  constructors_return self height width channels conv dilated pool proj ->
  construct self height width channels
  = Ok ([conv] ++ dilated ++ [pool], proj)
  /\ left_channels self height width channels = [conv] ++ dilated ++ [pool].
Proof.
  intros (Hconv & Hdilated & Hpool & Hproj).
  apply (mapM_Forall2
           (fun dilation_rate =>
              conv_dilated (num_channels self) dilation_rate
                (activation self))) in Hdilated.
  unfold SpatialPyramidPooling.construct,
    SpatialPyramidPooling.left_channels.
  rewrite Hconv, Hdilated, (constructed_mapM _ _ _ Hdilated), Hpool. simpl.
  now rewrite Hproj.
Qed.

Lemma construct_ok_inv self height width channels chans proj :
  construct self height width channels = Ok (chans, proj) ->
  exists conv dilated pool,
    chans = [conv] ++ dilated ++ [pool]
    /\ constructors_return self height width channels conv dilated pool proj.
Proof.
  unfold SpatialPyramidPooling.construct.
  destruct (conv_1x1 (num_channels self) (activation self)) as [conv|e];
    simpl; [|discriminate].
  destruct (mapM _ (dilation_rates self)) as [dilated|e] eqn:Hmap; simpl;
    [|discriminate].
  destruct (pool_branch channels (num_channels self) (activation self)
              height width) as [pool|e]; simpl; [|discriminate].
  destruct (projection_stack (num_channels self) (activation self)
              (dropout self)) as [proj'|e]; simpl; [|discriminate].
  intros [= <- <-]. exists conv, dilated, pool.
  split; [reflexivity|]. split; [reflexivity|].
  split; [now apply mapM_Forall2 in Hmap | split; reflexivity].
Qed.

(** [build] when every constructor returns. *)
Lemma build_returns d self sh height width channels conv dilated pool proj :
  d !! level self = Some sh ->
  sh !! 1%nat = Some height ->
  sh !! 2%nat = Some width ->
  sh !! 3%nat = Some channels ->
  constructors_return self height width channels conv dilated pool proj ->
  build (ADict d) self
  = (Ok tt,
     mk_layer (level self) (dilation_rates self) (num_channels self)
       (activation self) (dropout self)
       (Some ([conv] ++ dilated ++ [pool])) (Some proj)).
Proof.
  intros Hsh Hh Hw Hc Hret.
  destruct (construct_ok self height width channels conv dilated pool proj
              Hret) as [Hcons Hleft].
  rewrite (build_state_eq d self sh height width channels) by assumption.
  now rewrite Hcons, Hleft.
Qed.

(** The constructor calls read the constructor's attributes only. *)
Lemma construct_same_config self self' height width channels :
  same_config self self' ->
  construct self' height width channels
  = construct self height width channels
  /\ left_channels self' height width channels
     = left_channels self height width channels.
Proof.
  intros (Hl & Hr & Hn & Ha & Hd).
  unfold SpatialPyramidPooling.construct,
    SpatialPyramidPooling.left_channels.
  now rewrite Hr, Hn, Ha, Hd.
Qed.

(** X7: on a dict that holds a shape of rank 4 at the layer's level, and
    when every constructor it calls returns, [build] returns and leaves
    [len(dilation_rates) + 2] parallel stacks: the 1x1 convolution first,
    then one dilated convolution per rate in the order of
    [dilation_rates], then the pooling branch made from the shape's
    height, width and channels; and it leaves the projection.  The
    constructor's attributes are as before. *)
Theorem build_creates_stacks d self sh height width channels
    conv dilated pool proj :
  d !! level self = Some sh ->
  sh !! 1%nat = Some height ->
  sh !! 2%nat = Some width ->
  sh !! 3%nat = Some channels ->
  conv_1x1 (num_channels self) (activation self) = Ok conv ->
  Forall2 (fun dilation_rate stack =>
             conv_dilated (num_channels self) dilation_rate (activation self)
             = Ok stack)
          (dilation_rates self) dilated ->
  pool_branch channels (num_channels self) (activation self) height width
  = Ok pool ->
  projection_stack (num_channels self) (activation self) (dropout self)
  = Ok proj ->
  exists self' chans,
    build (ADict d) self = (Ok tt, self')
    /\ same_config self self'
    /\ aspp_parallel_channels self' = Some chans
    /\ chans = [conv] ++ dilated ++ [pool]
    /\ length chans = (length (dilation_rates self) + 2)%nat
    /\ projection self' = Some proj.
Proof.
  intros Hsh Hh Hw Hc Hconv Hdilated Hpool Hproj.
  do 2 eexists.
  split; [now apply (build_returns d self sh height width channels
                       conv dilated pool proj)|].
  simpl. split; [repeat split|]. split; [reflexivity|].
  split; [reflexivity|]. split; [|reflexivity].
  apply Forall2_length in Hdilated.
  rewrite length_cons, length_app. simpl. lia.
Qed.

(** X8: on a dict that holds the layer's level, [build] returns only
    when the shape there has four entries or more and every constructor
    returned; on a shorter shape it raises [IndexError] at the first
    missing index and has assigned nothing. *)
Theorem build_needs_rank_4 d self sh :
  d !! level self = Some sh ->
  (is_ok (build (ADict d) self).1 = true ->
   (4 <= length sh)%nat
   /\ exists height width channels conv dilated pool proj,
        sh !! 1%nat = Some height
        /\ sh !! 2%nat = Some width
        /\ sh !! 3%nat = Some channels
        /\ constructors_return self height width channels
             conv dilated pool proj)
  /\ ((length sh < 4)%nat -> build (ADict d) self = (Raise IndexError, self)).
Proof.
  intros Hsh. split; [|intros Hlen; now apply (build_short_eq d self sh)].
  destruct (decide (length sh < 4)%nat) as [Hlen|Hlen].
  - rewrite (build_short_eq d self sh) by assumption. discriminate.
  - destruct (shape_entries sh) as (h & w & c & Hh & Hw & Hc); [lia|].
    rewrite (build_state_eq d self sh h w c) by assumption. cbn [fst].
    destruct (construct self h w c) as [[chans proj]|e] eqn:Hcons;
      [|discriminate].
    intros _. split; [lia|].
    destruct (construct_ok_inv self h w c chans proj Hcons)
      as (conv & dilated & pool & _ & Hret).
    exists h, w, c, conv, dilated, pool, proj. auto.
Qed.

(** X9: [build] starts from an empty list, so its outcome and the list
    of stacks it leaves do not depend on what happened to the layer
    before; and when it returns it has assigned both attributes anew:
    after any history of [build] and [call] invocations, building on a
    valid dict then gives the layer that building at once would have
    given.  Stacks are not accumulated, and what calls did to the old
    stacks is gone.  Only when a constructor raises can the two layers
    differ, and then in the projection alone, which [build] has not
    reached: they are the same exactly when [build] returns or the
    history has left the projection as it was. *)
Theorem build_starts_afresh d self sh ops :
  d !! level self = Some sh ->
  (4 <= length sh)%nat ->
  (build (ADict d) (run self ops)).1 = (build (ADict d) self).1
  /\ aspp_parallel_channels (build (ADict d) (run self ops)).2
     = aspp_parallel_channels (build (ADict d) self).2
  /\ (build (ADict d) (run self ops) = build (ADict d) self
      <-> is_ok (build (ADict d) self).1 = true
          \/ projection (run self ops) = projection self).
Proof.
  intros Hsh Hlen.
  destruct (shape_entries sh) as (h & w & c & Hh & Hw & Hc); [lia|].
  pose proof (keeps_run_eq ops self) as Hkeeps.
  destruct (construct_same_config self (run self ops) h w c Hkeeps)
    as [Hcons Hleft].
  destruct Hkeeps as (Hl & Hr & Hn & Ha & Hd).
  rewrite (build_state_eq d self sh h w c) by assumption.
  rewrite (build_state_eq d (run self ops) sh h w c)
    by (rewrite ?Hl; assumption).
  rewrite Hcons, Hleft, Hl, Hr, Hn, Ha, Hd. cbn [fst snd].
  split; [reflexivity|]. split; [reflexivity|].
  destruct (construct self h w c) as [[chans proj]|e]; simpl.
  - split; [now left | reflexivity].
  - split.
    + intros [= Hproj]. now right.
    + intros [Hok| ->]; [discriminate | reflexivity].
Qed.

Lemma channel_outputs_Forall2 chans x training outs :
  channel_outputs chans x training = Ok outs
  <-> Forall2 (fun channel out =>
                 exists out',
                   (apply channel x training).1 = Ok out'
                   /\ cast out' (dtype_of x) = Ok out)
              chans outs.
Proof.
  revert outs. induction chans as [|channel rest IH]; intros outs; simpl.
  - split; [intros [= <-]; constructor | now inversion 1].
  - split.
    + destruct (apply channel x training) as [[out'|e] channel'] eqn:Ha;
        simpl; [|discriminate].
      destruct (cast out' (dtype_of x)) as [out|e] eqn:Hc; simpl;
        [|discriminate].
      destruct (SpatialPyramidPooling.channel_outputs dtype_of cast apply
                  rest x training) as [outs'|e] eqn:Hrest; simpl;
        [|discriminate].
      intros [= <-]. constructor; [|now apply IH].
      exists out'. now rewrite Ha.
    + inversion 1 as [|? out ? outs' (out' & Ha & Hc) Hrest]; subst.
      rewrite Ha. simpl. rewrite Hc. simpl.
      apply IH in Hrest. now rewrite Hrest.
Qed.

(** X10: a returning [call] has applied every parallel stack once to the
    tensor at the layer's level, and the projection once to the
    concatenation of their cast outputs; afterwards the layer holds these
    stacks as their calls left them, as many as before and in the same
    order. *)
Theorem call_applies_every_stack_once d x training self chans proj :
  d !! level self = Some x ->
  aspp_parallel_channels self = Some chans ->
  projection self = Some proj ->
  is_ok (call (ADict d) training self).1 = true ->
  exists chans' proj' outs result,
    aspp_parallel_channels (call (ADict d) training self).2 = Some chans'
    /\ projection (call (ADict d) training self).2 = Some proj'
    /\ length chans' = length chans
    /\ (forall i channel,
          chans !! i = Some channel ->
          chans' !! i = Some (apply channel x training).2)
    /\ Forall2 (fun channel out =>
                  exists out',
                    (apply channel x training).1 = Ok out'
                    /\ cast out' (dtype_of x) = Ok out)
               chans outs
    /\ concat outs = Ok result
    /\ proj' = (apply proj result training).2.
Proof.
  intros Hd Hc Hp.
  rewrite (call_built_eq d x training self chans proj) by assumption.
  destruct (channel_outputs chans x training) as [outs|e] eqn:Houts;
    simpl; [|discriminate].
  destruct (concat outs) as [result|e] eqn:Hcat; simpl; [|discriminate].
  intros _.
  rewrite (run_channels_states dtype_of cast apply chans x training outs)
    by assumption.
  do 4 eexists. split; [reflexivity|]. split; [reflexivity|].
  split; [apply length_map|]. split; [|split; [|split; [|reflexivity]]].
  - intros i channel Hi. now rewrite list_lookup_fmap, Hi.
  - exact (proj1 (channel_outputs_Forall2 chans x training outs) Houts).
  - exact Hcat.
Qed.

(** *** A built layer stays built *)

Lemma built_build input_shape self :
  built self -> built (build input_shape self).2.
Proof.
  intros Hb. destruct input_shape as [d|o]; [|exact Hb].
  destruct (d !! level self) as [sh|] eqn:Hd.
  - destruct (decide (length sh < 4)%nat) as [Hlen|Hlen].
    + now rewrite (build_short_eq d self sh).
    + destruct (shape_entries sh) as (h & w & c & Hh & Hw & Hc); [lia|].
      rewrite (build_state_eq d self sh h w c) by assumption.
      split; simpl; [eauto|].
      destruct (construct self h w c) as [[chans proj]|e];
        [eauto | apply Hb].
  - now rewrite (build_missing_eq d self).
Qed.

Lemma built_call inputs training self :
  built self -> built (call inputs training self).2.
Proof.
  intros Hb. destruct inputs as [d|o]; [|exact Hb].
  destruct (d !! level self) as [x|] eqn:Hd.
  - destruct Hb as [[chans Hc] [proj Hp]].
    rewrite (call_built_eq d x training self chans proj) by assumption.
    destruct (_ ≫= concat); split; simpl; eauto.
  - now rewrite (call_missing_eq d training self).
Qed.

Lemma built_run ops self : built self -> built (run self ops).
Proof.
  unfold SpatialPyramidPooling.run. revert self.
  induction ops as [|o ops IH]; intros self Hb; simpl; [exact Hb|].
  apply IH. destruct o; simpl; [now apply built_build | now apply built_call].
Qed.

(** X11: once the layer holds both attributes that [build] creates, no
    later invocation of [build] or [call], returning or raising, takes
    them away: after any history, [call] on a dict that holds the
    layer's level finds its stacks and its projection, and its outcome is
    the outcome of applying them. *)
Theorem built_layer_stays_built self ops d x training :
  built self ->
  d !! level self = Some x ->
  built (run self ops)
  /\ exists chans proj,
       aspp_parallel_channels (run self ops) = Some chans
       /\ projection (run self ops) = Some proj
       /\ (call (ADict d) training (run self ops)).1
          = (aspp_output chans proj x training
             ≫= (fun result => Ok {[ level self := result ]})).
Proof.
  intros Hb Hd.
  pose proof (built_run ops self Hb) as Hb'. split; [exact Hb'|].
  destruct Hb' as [[chans Hc] [proj Hp]].
  destruct (keeps_run_eq ops self) as (Hl & _).
  exists chans, proj. split; [exact Hc|]. split; [exact Hp|].
  rewrite (call_result_eq d x training (run self ops) chans proj)
    by (rewrite ?Hl; assumption).
  now rewrite Hl.
Qed.

(** X12: a layer as the constructor returns it, built on a dict with a
    shape of rank 4 at its level, every constructor returning, and then
    called on a dict with a tensor at that level, gives what the
    projection gives on the concatenated outputs of the 1x1 stack, the
    dilated stacks and the pooling stack, all applied to that tensor: the
    dict with that one tensor, or the exception of the first call among
    them that raises. *)
Theorem build_then_call lvl rates n act rate d sh height width channels
    inputs x training conv dilated pool proj :
  d !! lvl = Some sh ->
  sh !! 1%nat = Some height ->
  sh !! 2%nat = Some width ->
  sh !! 3%nat = Some channels ->
  inputs !! lvl = Some x ->
  conv_1x1 n act = Ok conv ->
  Forall2 (fun dilation_rate stack =>
             conv_dilated n dilation_rate act = Ok stack) rates dilated ->
  pool_branch channels n act height width = Ok pool ->
  projection_stack n act rate = Ok proj ->
  let self := SpatialPyramidPooling.__init__ lvl rates n act rate in
  (build (ADict d) self).1 = Ok tt
  /\ (call (ADict inputs) training (build (ADict d) self).2).1
     = (aspp_output ([conv] ++ dilated ++ [pool]) proj x training
        ≫= (fun result => Ok {[ lvl := result ]})).
Proof.
  intros Hsh Hh Hw Hc Hx Hconv Hdilated Hpool Hproj self.
  rewrite (build_returns d self sh height width channels conv dilated pool
             proj) by (try assumption; repeat split; assumption).
  cbn [fst snd]. split; [reflexivity|].
  erewrite call_result_eq; [reflexivity | exact Hx | reflexivity | reflexivity].
Qed.

(** X13: [call] reads its argument at the layer's level only: two dicts
    that hold the same tensor there give the same result and leave the
    same layer, whatever else they hold. *)
Theorem call_ignores_other_levels d1 d2 x training self :
  d1 !! level self = Some x ->
  d2 !! level self = Some x ->
  call (ADict d1) training self = call (ADict d2) training self.
Proof.
  intros H1 H2. unfold SpatialPyramidPooling.call. unfold_m.
  now rewrite H1, H2.
Qed.

(** X14: [call] on a layer as the constructor returns it never returns:
    it checks its argument first and raises [ValueError] on a bad one,
    and on a dict that holds the layer's level it raises [AttributeError]
    for the list of stacks that [build] has not created; either way the
    layer is as constructed. *)
Theorem call_before_build lvl rates n act rate inputs training :
  let self := SpatialPyramidPooling.__init__ lvl rates n act rate in
  (call inputs training self).2 = self
  /\ (has_level lvl inputs = true ->
      (call inputs training self).1
      = Raise (AttributeError "aspp_parallel_channels"))
  /\ (has_level lvl inputs = false ->
      is_value_error (call inputs training self).1 = true).
Proof.
  intros self. destruct inputs as [d|o].
  - destruct (d !! lvl) as [x|] eqn:Hd.
    + rewrite (call_unbuilt_eq d x training self Hd eq_refl).
      split; [reflexivity|]. split; [reflexivity|].
      intros Hl. apply has_level_dict in Hl. congruence.
    + rewrite (call_missing_eq d training self Hd).
      split; [reflexivity|]. split; [|reflexivity].
      unfold has_level. rewrite Hd. intros Hl.
      apply bool_decide_eq_true in Hl. now destruct Hl.
  - split; [reflexivity|]. split; [discriminate | reflexivity].
Qed.

Lemma dict_snoc_insert {V} (items : list (string * V)) (k : string) (v : V) :
  dict (items ++ [(k, v)]) = <[k := v]> (dict items).
Proof. unfold dict. now rewrite foldl_app. Qed.

(** X15: the mapping of [get_config] holds the five arguments of the
    constructor under their names, whatever the base class exported under
    those names, and every other item of the base class as it was; the two
    attributes that [build] creates are not exported.  Exporting leaves
    the layer as it was. *)
Theorem get_config_exports_constructor_arguments self :
  exists config,
    SpatialPyramidPooling.get_config base_config self = (Ok config, self)
    /\ config !! "level" = Some (CInt (level self))
    /\ config !! "dilation_rates" = Some (CInts (dilation_rates self))
    /\ config !! "num_channels" = Some (CInt (num_channels self))
    /\ config !! "activation" = Some (CStr (activation self))
    /\ config !! "dropout" = Some (CFloat (dropout self))
    /\ forall k : string,
         k ∉ ["level"; "dilation_rates"; "num_channels"; "activation";
              "dropout"] ->
         config !! k = dict base_config !! k.
Proof.
  eexists. split; [reflexivity|].
  change (base_config ++ _)
    with (base_config
          ++ [("level", CInt (level self));
              ("dilation_rates", CInts (dilation_rates self));
              ("num_channels", CInt (num_channels self));
              ("activation", CStr (activation self))]
          ++ [("dropout", CFloat (dropout self))]).
  unfold dict. rewrite foldl_app. simpl.
  repeat split; try (simplify_map_eq; reflexivity).
  intros k Hk. repeat rewrite not_elem_of_cons in Hk.
  destruct Hk as (?&?&?&?&?&_).
  now rewrite !lookup_insert_ne by congruence.
Qed.

(** *** What a raising [build] or [call] leaves behind *)

Lemma mapM_raised {A B} (f : A -> result B) before x after ys e :
  Forall2 (fun x y => f x = Ok y) before ys ->
  f x = Raise e ->
  mapM f (before ++ x :: after) = Raise e
  /\ constructed f (before ++ x :: after) = ys.
Proof.
  intros Hbefore Hx. induction Hbefore as [|b y before ys Hb _ [IH1 IH2]].
  - simpl. now rewrite Hx.
  - simpl. rewrite Hb. simpl. split; [now rewrite IH1 | now rewrite IH2].
Qed.

(** X16: [build] assigns the empty list to [aspp_parallel_channels]
    before it calls a constructor and appends each stack as soon as it is
    made, so a constructor that raises leaves the layer with the stacks
    made before it, and with the projection it had: none after the
    constructor, the old one after an earlier [build]. *)
Theorem failed_build_leaves_stacks_made_so_far d self sh height width
    channels e :
  d !! level self = Some sh ->
  sh !! 1%nat = Some height ->
  sh !! 2%nat = Some width ->
  sh !! 3%nat = Some channels ->
  (conv_1x1 (num_channels self) (activation self) = Raise e ->
   build (ADict d) self = (Raise e, with_channels self []))
  /\
  (forall conv before dilation_rate after stacks,
     conv_1x1 (num_channels self) (activation self) = Ok conv ->
     dilation_rates self = before ++ dilation_rate :: after ->
     Forall2 (fun dilation_rate stack =>
                conv_dilated (num_channels self) dilation_rate
                  (activation self) = Ok stack) before stacks ->
     conv_dilated (num_channels self) dilation_rate (activation self)
     = Raise e ->
     build (ADict d) self = (Raise e, with_channels self ([conv] ++ stacks)))
  /\
  (forall conv dilated,
     conv_1x1 (num_channels self) (activation self) = Ok conv ->
     Forall2 (fun dilation_rate stack =>
                conv_dilated (num_channels self) dilation_rate
                  (activation self) = Ok stack)
             (dilation_rates self) dilated ->
     pool_branch channels (num_channels self) (activation self) height width
     = Raise e ->
     build (ADict d) self = (Raise e, with_channels self ([conv] ++ dilated)))
  /\
  (forall conv dilated pool,
     conv_1x1 (num_channels self) (activation self) = Ok conv ->
     Forall2 (fun dilation_rate stack =>
                conv_dilated (num_channels self) dilation_rate
                  (activation self) = Ok stack)
             (dilation_rates self) dilated ->
     pool_branch channels (num_channels self) (activation self) height width
     = Ok pool ->
     projection_stack (num_channels self) (activation self) (dropout self)
     = Raise e ->
     build (ADict d) self
     = (Raise e, with_channels self ([conv] ++ dilated ++ [pool]))).
Proof.
  intros Hsh Hh Hw Hc.
  rewrite (build_state_eq d self sh height width channels) by assumption.
  unfold SpatialPyramidPooling.construct,
    SpatialPyramidPooling.left_channels, with_channels.
  split; [|split; [|split]].
  - intros Hconv. now rewrite Hconv.
  - intros conv before rate after stacks Hconv Hrates Hbefore Hrate.
    destruct (mapM_raised
                (fun dilation_rate =>
                   conv_dilated (num_channels self) dilation_rate
                     (activation self))
                before rate after stacks e Hbefore Hrate) as [Hmap Hmade].
    rewrite Hconv, Hrates. simpl. now rewrite Hmap, Hmade.
  - intros conv dilated Hconv Hdilated Hpool.
    apply (mapM_Forall2
             (fun dilation_rate =>
                conv_dilated (num_channels self) dilation_rate
                  (activation self))) in Hdilated.
    rewrite Hconv, Hdilated, (constructed_mapM _ _ _ Hdilated), Hpool.
    reflexivity.
  - intros conv dilated pool Hconv Hdilated Hpool Hproj.
    apply (mapM_Forall2
             (fun dilation_rate =>
                conv_dilated (num_channels self) dilation_rate
                  (activation self))) in Hdilated.
    rewrite Hconv, Hdilated, (constructed_mapM _ _ _ Hdilated), Hpool.
    simpl. now rewrite Hproj.
Qed.

(** X17: the loop of [call] applies the stacks one after the other, so
    when a stack or the cast of its output raises, [call] raises the same
    and leaves the layer with the stacks before it and that stack as
    their calls left them, and with the stacks after it and the
    projection untouched. *)
Theorem failed_call_leaves_earlier_stacks_applied d x training self
    before channel after outs e :
  d !! level self = Some x ->
  aspp_parallel_channels self = Some (before ++ channel :: after) ->
  channel_outputs before x training = Ok outs ->
  ((apply channel x training).1 ≫= (fun out => cast out (dtype_of x)))
  = Raise e ->
  call (ADict d) training self
  = (Raise e,
     with_channels self
       (map (fun channel => (apply channel x training).2) before
        ++ (apply channel x training).2 :: after)).
Proof.
  intros Hd Hc Hbefore Hchannel.
  pose proof (run_channels_raised dtype_of cast apply before channel after x
                training outs e Hbefore Hchannel) as Hrun.
  pose proof (run_channels_outputs dtype_of cast apply
                (before ++ channel :: after) x training) as Hout.
  rewrite Hrun in Hout. cbn [fst] in Hout.
  destruct (projection self) as [proj|] eqn:Hp.
  - rewrite (call_built_eq d x training self (before ++ channel :: after)
               proj) by assumption.
    rewrite <- Hout, Hrun. reflexivity.
  - rewrite (call_half_built_eq d x training self
               (before ++ channel :: after)) by assumption.
    rewrite <- Hout, Hrun. reflexivity.
Qed.


End SpatialPyramidPoolingMore.

(** The further properties at concrete layers, images and dicts. *)

Lemma augment_image_keeps_leading_dimensions_batch :
  shape Instances.batch_2x1x2 = [2; 1; 2]%nat ++ [3%nat]
  /\ wf Instances.batch_2x1x2
  /\ exists out,
       (Grayscale.augment_image Instances.luma_Z Instances.batch_2x1x2
          (@None unit) ∅ (Grayscale.mk_layer tt (VInt 3) false)).1 = Ok out
       /\ shape out = [2; 1; 2]%nat ++ [3%nat] /\ wf out.
Proof.
  split; [reflexivity|]. split; [reflexivity|].
  exact (proj1 (proj2 (augment_image_keeps_leading_dimensions
                         Instances.luma_Z
                         (Grayscale.mk_layer tt (VInt 3) false)
                         Instances.batch_2x1x2 None ∅ [2; 1; 2]%nat
                         eq_refl eq_refl))
           ltac:(discriminate) eq_refl).
Defined.

Lemma augment_image_twice_2x2 :
  shape Instances.image_2x2 = [2; 2; 3]%nat
  /\ exists out,
       (Grayscale.augment_image Instances.luma_Z Instances.image_2x2
          (@None unit) ∅ (Grayscale.mk_layer tt (VInt 1) false)).1 = Ok out
       /\ (Grayscale.augment_image Instances.luma_Z out (@None unit) ∅
             (Grayscale.mk_layer tt (VInt 1) false)).1
          = Raise InvalidArgumentError.
Proof.
  split; [reflexivity|].
  exact (proj2 (augment_image_twice Instances.luma_Z
                  (Grayscale.mk_layer tt (VInt 1) false) Instances.image_2x2
                  None ∅ 2 2 eq_refl) eq_refl).
Defined.

Lemma checked_layer_returns_on_rgb_images_3 :
  is_ok (Grayscale._check_input_params (VInt 3)
           (Grayscale.mk_layer tt (VInt 5) false)).1 = true
  /\ (2 <= length (shape Instances.image_2x2))%nat
  /\ last (shape Instances.image_2x2) = Some 3%nat
  /\ is_ok (Grayscale.augment_image Instances.luma_Z Instances.image_2x2
              (@None unit) ∅
              (Grayscale._check_input_params (VInt 3)
                 (Grayscale.mk_layer tt (VInt 5) false)).2).1 = true.
Proof.
  split; [reflexivity|]. split; [simpl; lia|]. split; [reflexivity|].
  apply (checked_layer_returns_on_rgb_images Instances.luma_Z (VInt 3)
           (Grayscale.mk_layer tt (VInt 5) false) Instances.image_2x2
           None ∅); [reflexivity | simpl; lia | reflexivity].
Defined.

Lemma build_creates_stacks_level_4 :
  Instances.shapes_2_to_5 !! SpatialPyramidPooling.level Instances.spp_4
  = Some Instances.shape_at_4
  /\ Instances.conv_1x1_Z 256 "relu" = Ok 256
  /\ Forall2 (fun dilation_rate stack =>
                Instances.conv_dilated_Z 256 dilation_rate "relu" = Ok stack)
             [6; 12; 18] [262; 268; 274]
  /\ Instances.pool_branch_Z (Some 112) 256 "relu" (Some 24) (Some 24)
     = Ok 256
  /\ Instances.projection_stack_Z 256 "relu" 0 = Ok 256
  /\ exists self' chans,
       Instances.spp_build
         (SpatialPyramidPooling.ADict Instances.shapes_2_to_5)
         Instances.spp_4 = (Ok tt, self')
       /\ SpatialPyramidPooling.same_config Instances.spp_4 self'
       /\ SpatialPyramidPooling.aspp_parallel_channels self' = Some chans
       /\ chans = [256] ++ [262; 268; 274] ++ [256]
       /\ length chans = 5%nat
       /\ SpatialPyramidPooling.projection self' = Some 256.
Proof.
  assert (Hdilated :
    Forall2 (fun dilation_rate stack =>
               Instances.conv_dilated_Z 256 dilation_rate "relu" = Ok stack)
            [6; 12; 18] [262; 268; 274])
    by (repeat constructor).
  split; [reflexivity|]. split; [reflexivity|]. split; [exact Hdilated|].
  split; [reflexivity|]. split; [reflexivity|].
  exact (build_creates_stacks Instances.conv_1x1_Z Instances.conv_dilated_Z
           Instances.pool_branch_Z Instances.projection_stack_Z
           Instances.str_any Instances.shapes_2_to_5 Instances.spp_4
           Instances.shape_at_4 (Some 24) (Some 24) (Some 112)
           256 [262; 268; 274] 256 256
           eq_refl eq_refl eq_refl eq_refl eq_refl Hdilated eq_refl eq_refl).
Defined.

Lemma build_needs_rank_4_short :
  Instances.short_shapes !! SpatialPyramidPooling.level Instances.spp_4
  = Some Instances.short_shape
  /\ (length Instances.short_shape < 4)%nat
  /\ Instances.spp_build (SpatialPyramidPooling.ADict Instances.short_shapes)
       Instances.spp_4
     = (Raise IndexError, Instances.spp_4).
Proof.
  split; [reflexivity|]. split; [simpl; lia|].
  apply (proj2 (build_needs_rank_4 Instances.conv_1x1_Z
                  Instances.conv_dilated_Z Instances.pool_branch_Z
                  Instances.projection_stack_Z Instances.str_any
                  Instances.short_shapes Instances.spp_4 Instances.short_shape
                  eq_refl)).
  simpl; lia.
Defined.

Lemma build_starts_afresh_level_4 :
  Instances.shapes_2_to_5 !! SpatialPyramidPooling.level Instances.spp_4_built
  = Some Instances.shape_at_4
  /\ (4 <= length Instances.shape_at_4)%nat
  /\ Instances.spp_run Instances.spp_4_built Instances.spp_history
     <> Instances.spp_4_built
  /\ is_ok (Instances.spp_build
              (SpatialPyramidPooling.ADict Instances.shapes_2_to_5)
              Instances.spp_4_built).1 = true
  /\ Instances.spp_build (SpatialPyramidPooling.ADict Instances.shapes_2_to_5)
       (Instances.spp_run Instances.spp_4_built Instances.spp_history)
     = Instances.spp_build
         (SpatialPyramidPooling.ADict Instances.shapes_2_to_5)
         Instances.spp_4_built.
Proof.
  split; [reflexivity|]. split; [simpl; lia|]. split; [discriminate|].
  split; [reflexivity|].
  apply (proj2 (proj2
           (build_starts_afresh Instances.dtype_of_Z Instances.cast_Z
              Instances.concat_Z Instances.apply_Z Instances.conv_1x1_Z
              Instances.conv_dilated_Z Instances.pool_branch_Z
              Instances.projection_stack_Z Instances.str_any
              Instances.str_any Instances.shapes_2_to_5
              Instances.spp_4_built Instances.shape_at_4
              Instances.spp_history eq_refl ltac:(simpl; lia)))).
  left. reflexivity.
Defined.

Lemma call_applies_every_stack_once_level_4 :
  Instances.inputs_3_4 !! SpatialPyramidPooling.level Instances.spp_4_built
  = Some 10
  /\ SpatialPyramidPooling.aspp_parallel_channels Instances.spp_4_built
     = Some [256; 262; 268; 274; 256]
  /\ SpatialPyramidPooling.projection Instances.spp_4_built = Some 256
  /\ is_ok (Instances.spp_call
              (SpatialPyramidPooling.ADict Instances.inputs_3_4) None
              Instances.spp_4_built).1 = true
  /\ exists chans' proj',
       SpatialPyramidPooling.aspp_parallel_channels
         (Instances.spp_call (SpatialPyramidPooling.ADict Instances.inputs_3_4)
            None Instances.spp_4_built).2 = Some chans'
       /\ SpatialPyramidPooling.projection
            (Instances.spp_call
               (SpatialPyramidPooling.ADict Instances.inputs_3_4) None
               Instances.spp_4_built).2 = Some proj'
       /\ length chans' = 5%nat.
Proof.
  split; [reflexivity|]. split; [reflexivity|]. split; [reflexivity|].
  split; [reflexivity|].
  destruct (call_applies_every_stack_once Instances.dtype_of_Z
              Instances.cast_Z Instances.concat_Z Instances.apply_Z
              Instances.str_any Instances.inputs_3_4 10 None
              Instances.spp_4_built [256; 262; 268; 274; 256] 256
              eq_refl eq_refl eq_refl eq_refl)
    as (chans' & proj' & outs & result & Hc & Hp & Hl & _).
  exists chans', proj'.
  split; [exact Hc|]. split; [exact Hp | exact Hl].
Defined.

Lemma built_layer_stays_built_level_4 :
  SpatialPyramidPooling.built Instances.spp_4_built
  /\ Instances.inputs_4 !! SpatialPyramidPooling.level Instances.spp_4_built
     = Some 10
  /\ SpatialPyramidPooling.built
       (Instances.spp_run Instances.spp_4_built Instances.spp_history).
Proof.
  assert (Hb : SpatialPyramidPooling.built Instances.spp_4_built)
    by (split; eexists; reflexivity).
  split; [exact Hb|]. split; [reflexivity|].
  exact (proj1 (built_layer_stays_built Instances.dtype_of_Z Instances.cast_Z
                  Instances.concat_Z Instances.apply_Z Instances.conv_1x1_Z
                  Instances.conv_dilated_Z Instances.pool_branch_Z
                  Instances.projection_stack_Z Instances.str_any
                  Instances.str_any Instances.spp_4_built
                  Instances.spp_history Instances.inputs_4 10 None Hb
                  eq_refl)).
Defined.

Lemma build_then_call_level_4 :
  Instances.shapes_2_to_5 !! 4 = Some Instances.shape_at_4
  /\ Instances.inputs_3_4 !! 4 = Some 10
  /\ Instances.conv_1x1_Z 256 "relu" = Ok 256
  /\ Forall2 (fun dilation_rate stack =>
                Instances.conv_dilated_Z 256 dilation_rate "relu" = Ok stack)
             [6; 12; 18] [262; 268; 274]
  /\ Instances.pool_branch_Z (Some 112) 256 "relu" (Some 24) (Some 24)
     = Ok 256
  /\ Instances.projection_stack_Z 256 "relu" 0 = Ok 256
  /\ (Instances.spp_build
        (SpatialPyramidPooling.ADict Instances.shapes_2_to_5)
        Instances.spp_4).1 = Ok tt
  /\ (Instances.spp_call (SpatialPyramidPooling.ADict Instances.inputs_3_4)
        None
        (Instances.spp_build
           (SpatialPyramidPooling.ADict Instances.shapes_2_to_5)
           Instances.spp_4).2).1
     = (SpatialPyramidPooling.aspp_output Instances.dtype_of_Z
          Instances.cast_Z Instances.concat_Z Instances.apply_Z
          ([256] ++ [262; 268; 274] ++ [256]) 256 10 None
        ≫= (fun result => Ok {[ 4 := result ]})).
Proof.
  assert (Hdilated :
    Forall2 (fun dilation_rate stack =>
               Instances.conv_dilated_Z 256 dilation_rate "relu" = Ok stack)
            [6; 12; 18] [262; 268; 274])
    by (repeat constructor).
  split; [reflexivity|]. split; [reflexivity|]. split; [reflexivity|].
  split; [exact Hdilated|]. split; [reflexivity|]. split; [reflexivity|].
  exact (build_then_call Instances.dtype_of_Z Instances.cast_Z
           Instances.concat_Z Instances.apply_Z Instances.conv_1x1_Z
           Instances.conv_dilated_Z Instances.pool_branch_Z
           Instances.projection_stack_Z Instances.str_any Instances.str_any
           4 [6; 12; 18] 256 "relu" 0 Instances.shapes_2_to_5
           Instances.shape_at_4 (Some 24) (Some 24) (Some 112)
           Instances.inputs_3_4 10 None 256 [262; 268; 274] 256 256
           eq_refl eq_refl eq_refl eq_refl eq_refl eq_refl Hdilated eq_refl
           eq_refl).
Defined.

Lemma call_ignores_other_levels_3_4 :
  Instances.inputs_3_4 !! SpatialPyramidPooling.level Instances.spp_4_built
  = Some 10
  /\ Instances.inputs_4 !! SpatialPyramidPooling.level Instances.spp_4_built
     = Some 10
  /\ Instances.inputs_3_4 <> Instances.inputs_4
  /\ Instances.spp_call (SpatialPyramidPooling.ADict Instances.inputs_3_4)
       (Some true) Instances.spp_4_built
     = Instances.spp_call (SpatialPyramidPooling.ADict Instances.inputs_4)
         (Some true) Instances.spp_4_built.
Proof.
  split; [reflexivity|]. split; [reflexivity|].
  split.
  - intros Heq.
    assert (H3 : Instances.inputs_3_4 !! 3 = Instances.inputs_4 !! 3)
      by now rewrite Heq.
    discriminate H3.
  - exact (call_ignores_other_levels Instances.dtype_of_Z Instances.cast_Z
             Instances.concat_Z Instances.apply_Z Instances.str_any
             Instances.inputs_3_4 Instances.inputs_4 10 (Some true)
             Instances.spp_4_built eq_refl eq_refl).
Defined.

(** [build] on a layer made with [dropout=7]: the five stacks are made
    and appended, then [Dropout] refuses the rate, and the layer is left
    with the stacks and without a projection. *)
Lemma failed_build_leaves_stacks_made_so_far_dropout_7 :
  Instances.shapes_2_to_5
    !! SpatialPyramidPooling.level Instances.spp_dropout_7
  = Some Instances.shape_at_4
  /\ Instances.conv_1x1_Z 256 "relu" = Ok 256
  /\ Forall2 (fun dilation_rate stack =>
                Instances.conv_dilated_Z 256 dilation_rate "relu" = Ok stack)
             [6; 12; 18] [262; 268; 274]
  /\ Instances.pool_branch_Z (Some 112) 256 "relu" (Some 24) (Some 24)
     = Ok 256
  /\ Instances.projection_stack_Z 256 "relu" 7
     = Raise (ValueError Instances.dropout_rate_msg)
  /\ Instances.spp_build
       (SpatialPyramidPooling.ADict Instances.shapes_2_to_5)
       Instances.spp_dropout_7
     = (Raise (ValueError Instances.dropout_rate_msg),
        SpatialPyramidPooling.mk_layer 4 [6; 12; 18] 256 "relu" 7
          (Some [256; 262; 268; 274; 256]) None).
Proof.
  assert (Hdilated :
    Forall2 (fun dilation_rate stack =>
               Instances.conv_dilated_Z 256 dilation_rate "relu" = Ok stack)
            [6; 12; 18] [262; 268; 274])
    by (repeat constructor).
  split; [reflexivity|]. split; [reflexivity|]. split; [exact Hdilated|].
  split; [reflexivity|]. split; [reflexivity|].
  exact (proj2 (proj2 (proj2
           (failed_build_leaves_stacks_made_so_far Instances.conv_1x1_Z
              Instances.conv_dilated_Z Instances.pool_branch_Z
              Instances.projection_stack_Z Instances.str_any
              Instances.shapes_2_to_5 Instances.spp_dropout_7
              Instances.shape_at_4 (Some 24) (Some 24) (Some 112)
              (ValueError Instances.dropout_rate_msg)
              eq_refl eq_refl eq_refl eq_refl)))
           256 [262; 268; 274] 256 eq_refl Hdilated eq_refl eq_refl).
Defined.

(** A [call] whose second stack raises: the first stack has counted a
    call, the others and the projection have not. *)
Lemma failed_call_leaves_earlier_stacks_applied_level_4 :
  Instances.inputs_large !! SpatialPyramidPooling.level Instances.spp_4_built
  = Some 9740
  /\ SpatialPyramidPooling.aspp_parallel_channels Instances.spp_4_built
     = Some ([256] ++ 262 :: [268; 274; 256])
  /\ SpatialPyramidPooling.channel_outputs Instances.dtype_of_Z
       Instances.cast_Z Instances.apply_Z [256] 9740 None = Ok [9996]
  /\ ((Instances.apply_Z 262 9740 None).1
      ≫= (fun out => Instances.cast_Z out (Instances.dtype_of_Z 9740)))
     = Raise InvalidArgumentError
  /\ Instances.spp_call (SpatialPyramidPooling.ADict Instances.inputs_large)
       None Instances.spp_4_built
     = (Raise InvalidArgumentError,
        SpatialPyramidPooling.mk_layer 4 [6; 12; 18] 256 "relu" 0
          (Some [257; 262; 268; 274; 256]) (Some 256)).
Proof.
  split; [reflexivity|]. split; [reflexivity|]. split; [reflexivity|].
  split; [reflexivity|].
  exact (failed_call_leaves_earlier_stacks_applied Instances.dtype_of_Z
           Instances.cast_Z Instances.concat_Z Instances.apply_Z
           Instances.str_any Instances.inputs_large 9740 None
           Instances.spp_4_built [256] 262 [268; 274; 256] [9996]
           InvalidArgumentError eq_refl eq_refl eq_refl eq_refl).
Defined.

(** Why [build] starts afresh only when it returns: with a pooling
    branch that cannot be made for a shape whose height and width are
    unknown, [build] on such a shape raises the same on a built layer and
    on a new one, with the same four stacks left, but the built layer
    keeps the projection of its first [build] and the new one has none. *)
Lemma raising_build_keeps_old_projection :
  Instances.spp_run Instances.spp_4
    [SpatialPyramidPooling.Build
       (SpatialPyramidPooling.ADict Instances.shapes_2_to_5)]
  = Instances.spp_4_built
  /\ (Instances.spp_build
        (SpatialPyramidPooling.ADict Instances.shapes_unknown)
        Instances.spp_4_built).1
     = (Instances.spp_build
          (SpatialPyramidPooling.ADict Instances.shapes_unknown)
          Instances.spp_4).1
  /\ SpatialPyramidPooling.projection
       (Instances.spp_build
          (SpatialPyramidPooling.ADict Instances.shapes_unknown)
          Instances.spp_4_built).2 = Some 256
  /\ SpatialPyramidPooling.projection
       (Instances.spp_build
          (SpatialPyramidPooling.ADict Instances.shapes_unknown)
          Instances.spp_4).2 = None.
Proof. vm_compute. repeat split. Qed.
